(** * Wekruit user-retention analysis: the survival-analysis script

    A shallow embedding of [code/01_survival_analysis.py].  The script is a
    single pipeline: it simulates a table of users, right-censors the
    simulated churn times at the end of the study, estimates survival curves
    (Kaplan-Meier), compares subgroups (log-rank), fits a Cox regression and
    prints a report.

    Conventions of the embedding.
    - Python floats are idealised as exact rationals ([Q]); equality of
      computed values is [Qeq] ([==]).  The only transcendental function of
      the script, [np.exp] in the hazard-ratio section, is taken over [R].
    - NumPy's generator is not re-implemented: the variates the script draws
      are an explicit input ([draw]), so every statement holds for whatever
      the seeded generator produces.
    - A library call that may fail or warn returns a [lib_result]. *)

From Stdlib Require Import Reals Lra.
From Stdlib Require Import QArith Qminmax Qround ZArith List String Ascii Bool.
From Stdlib Require Import Lia Lqa DecimalString.
Import ListNotations.

Local Open Scope Z_scope.
Local Open Scope Q_scope.

(** ** 0. Conversions of the data-frame library *)

Module Pandas.

(** A float cast to [int64]: the fraction is cut off, towards zero. *)
Definition truncate (x : Q) : Z := Z.quot (Qnum x) (Zpos (Qden x)).

(** [np.rint]: the nearest integer, ties to the even one. *)
Definition rint (x : Q) : Z :=
  let f := Qfloor x in
  match Qcompare (x - inject_Z f) (1 # 2) with
  | Lt => f
  | Gt => (f + 1)%Z
  | Eq => if Z.even f then f else (f + 1)%Z
  end.

(** [np.round(x, decimals)]. *)
Definition np_round (x : Q) (decimals : nat) : Q :=
  inject_Z (rint (x * inject_Z (10 ^ Z.of_nat decimals)))
  / inject_Z (10 ^ Z.of_nat decimals).

Definition ns_per_day : Z := (86400 * 10 ^ 9)%Z.

(** [pd.to_timedelta(x, unit='D')] of a float, in whole nanoseconds: the
    whole days and the fraction of a day are converted separately, the
    fraction being rounded to 13 decimals (one fewer than the digits of the
    number of nanoseconds in a day) and its nanoseconds cut to an integer. *)
Definition to_timedelta_days (x : Q) : Z :=
  let base := truncate x in
  let frac := np_round (x - inject_Z base) 13 in
  (base * ns_per_day + truncate (frac * inject_Z ns_per_day))%Z.

End Pandas.

(** ** 1. Simulated user-retention data (script lines 31-62) *)

Module Generator.

Inductive user_type := job_seeker | interviewer | recruiter.
Inductive subscription_tier := free | premium.

(** The variates drawn for one user.  NumPy draws them column by column
    ([randint], two [choice]s, [poisson], [normal], then the exponential
    sampler); a [draw] is one row of those columns.  [std_exponential] is the
    unit-scale variate that [np.random.exponential] multiplies by its [scale]
    argument. *)
Record draw := mkDraw {
  signup_offset : Z;
  drawn_user_type : user_type;
  drawn_tier : subscription_tier;
  drawn_interviews : Z;
  drawn_score : Q;
  std_exponential : Q
}.

(** One row of [users_retention] with all the columns the script adds.
    [signup_date] is in days since 2025-09-01; [last_active_date], a
    timestamp of nanosecond resolution, is in nanoseconds since then. *)
Record user := mkUser {
  user_id : Z;
  signup_date : Z;
  utype : user_type;
  tier : subscription_tier;
  num_interviews : Z;
  avg_score : Q;
  baseline_hazard : Q;
  time_to_churn : Q;
  churned : Z;
  time_observed : Q;
  last_active_date : Z
}.

Definition n_users : nat := 1500%nat.
Definition study_end : Q := 120.

Definition is_premium (t : subscription_tier) : bool :=
  match t with premium => true | free => false end.

(** [users_retention['baseline_hazard'] = 0.015] *)
Definition initial_hazard : Q := 0.015.

(** [users_retention.loc[tier == 'premium', 'baseline_hazard'] *= 0.43] *)
Definition adjust_subscription (t : subscription_tier) (h : Q) : Q :=
  if is_premium t then h * 0.43 else h.

(** [users_retention.loc[num_interviews >= 5, 'baseline_hazard'] *= 0.32] *)
Definition adjust_activity (k : Z) (h : Q) : Q :=
  if (5 <=? k)%Z then h * 0.32 else h.

Definition hazard_of (t : subscription_tier) (k : Z) : Q :=
  adjust_activity k (adjust_subscription t initial_hazard).

(** [np.random.exponential(scale)]: the unit-scale variate times [scale]. *)
Definition np_random_exponential (scale e : Q) : Q := scale * e.

(** The argument the script passes to the sampler: [1 / baseline_hazard]. *)
Definition exponential_scale (h : Q) : Q := 1 / h.

(** [(time_to_churn <= study_end).astype(int)] *)
Definition churn_indicator (t : Q) : Z :=
  if Qle_bool t study_end then 1%Z else 0%Z.

(** [np.minimum(a, b)]: [a] where [a < b], else [b]. *)
Definition np_minimum (a b : Q) : Q :=
  if Qle_bool b a then b else a.

Definition simulate_user (id : Z) (d : draw) : user :=
  let h := hazard_of (drawn_tier d) (drawn_interviews d) in
  let t := np_random_exponential (exponential_scale h) (std_exponential d) in
  let obs := np_minimum t study_end in
  {| user_id := id;
     signup_date := signup_offset d;
     utype := drawn_user_type d;
     tier := drawn_tier d;
     num_interviews := drawn_interviews d;
     avg_score := drawn_score d;
     baseline_hazard := h;
     time_to_churn := t;
     churned := churn_indicator t;
     time_observed := obs;
     last_active_date :=
       (signup_offset d * Pandas.ns_per_day
        + Pandas.to_timedelta_days obs)%Z |}.

(** Rows are numbered [range(1, n + 1)]. *)
Fixpoint number_from (id : Z) (ds : list draw) : list user :=
  match ds with
  | [] => []
  | d :: ds' => simulate_user id d :: number_from (id + 1) ds'
  end.

Definition generate (ds : list draw) : list user := number_from 1 ds.

(** The four values a hazard can take. *)
Definition hazard_values : list Q :=
  [0.015; 0.015 * 0.43; 0.015 * 0.32; 0.015 * 0.43 * 0.32].

End Generator.

(** ** 2. Kaplan-Meier estimation (script lines 79-142) *)

Module KaplanMeier.

(** An observation: a duration and whether the event (churn) was observed. *)
Definition observation : Type := (Q * bool)%type.

Definition duration (o : observation) : Q := fst o.
Definition event_observed (o : observation) : bool := snd o.

(** A Python float as the report formats it: a finite value or [inf]. *)
Inductive pyfloat := Finite (q : Q) | PosInf.

Definition count (p : observation -> bool) (data : list observation) : Z :=
  Z.of_nat (List.length (filter p data)).

(** Number of events observed exactly at [t]. *)
Definition deaths_at (data : list observation) (t : Q) : Z :=
  count (fun o => Qeq_bool (duration o) t && event_observed o) data.

(** Number of subjects still under observation just before [t]. *)
Definition at_risk_at (data : list observation) (t : Q) : Z :=
  count (fun o => Qle_bool t (duration o)) data.

(** The distinct durations in increasing order. *)
Fixpoint insert_time (t : Q) (l : list Q) : list Q :=
  match l with
  | [] => [t]
  | u :: l' =>
      if Qeq_bool t u then l
      else if Qle_bool t u then t :: l
      else u :: insert_time t l'
  end.

Definition timeline (data : list observation) : list Q :=
  fold_right insert_time [] (map duration data).

Record table_row := mkRow {
  event_at : Q;
  observed : Z;
  at_risk : Z
}.

Definition event_table (data : list observation) : list table_row :=
  map (fun t => mkRow t (deaths_at data t) (at_risk_at data t)) (timeline data).

(** A well-formed row: the deaths are among those at risk. *)
Definition row_ok (r : table_row) : Prop :=
  (0 <= observed r <= at_risk r)%Z.

Definition unit_interval (x : Q) : Prop := 0 <= x /\ x <= 1.

(** The product-limit factor of one row: [1 - d / n]. *)
Definition factor (r : table_row) : Q :=
  1 - inject_Z (observed r) / inject_Z (at_risk r).

(** Running product of the factors, one estimate per time of the table. *)
Fixpoint cumprod (acc : Q) (rows : list table_row) : list (Q * Q) :=
  match rows with
  | [] => []
  | r :: rows' =>
      let acc' := acc * factor r in
      (event_at r, acc') :: cumprod acc' rows'
  end.

(** The estimate is a right-continuous step function: its value at [t] is the
    one at the last time of the table not after [t]; [last] is the value
    before the first time. *)
Fixpoint step_at (sf : list (Q * Q)) (t : Q) (last : Q) : Q :=
  match sf with
  | [] => last
  | (u, s) :: sf' => if Qle_bool u t then step_at sf' t s else last
  end.

(** First time at which the estimate is at most [q]; [inf] when it never is. *)
Fixpoint first_at_most (q : Q) (sf : list (Q * Q)) : pyfloat :=
  match sf with
  | [] => PosInf
  | (u, s) :: sf' => if Qle_bool s q then Finite u else first_at_most q sf'
  end.

(** Modelled from the spec: [KaplanMeierFitter] belongs to the lifelines
    library, which is not part of the repository.  The spec's estimator
    contract is followed: the standard product-limit estimate of the survival
    function, the median as the first time the estimate reaches 0.5 (infinite
    when it never does), and the estimate read at given times.  An empty
    sample, which the library refuses, gets the constant estimate 1 here. *)
Record KaplanMeierFitter := mkFit {
  survival_function_ : list (Q * Q);
  median_survival_time_ : pyfloat
}.

Definition fit (data : list observation) : KaplanMeierFitter :=
  let sf := cumprod 1 (event_table data) in
  {| survival_function_ := sf;
     median_survival_time_ := first_at_most (1 # 2) sf |}.

Definition survival_function_at_times (kmf : KaplanMeierFitter) (t : Q) : Q :=
  step_at (survival_function_ kmf) t 1.

(** The survival estimate of a sample as a function of time. *)
Definition survival (data : list observation) (t : Q) : Q :=
  survival_function_at_times (fit data) t.

Definition checkpoints : list Q := [30; 60; 90; 120].

Definition has_event (data : list observation) : bool :=
  existsb event_observed data.

(** The two columns the script hands to the fitter. *)
Definition observations (us : list Generator.user) : list observation :=
  map (fun u => (Generator.time_observed u,
                 negb (Z.eqb (Generator.churned u) 0))) us.

End KaplanMeier.

(** ** 3. Log-rank test (script lines 110-113 and 145-148) *)

Module LogRank.
Import KaplanMeier.

Record StatisticalResult := mkResult {
  test_statistic : Q;
  p_value : Q
}.

Definition sum_over (f : Q -> Q) (ts : list Q) : Q :=
  fold_right (fun t acc => f t + acc) 0 ts.

Section Test.

Variables A B : list observation.

(** Distinct times at which an event was observed in the pooled sample. *)
Definition event_times : list Q :=
  timeline (filter event_observed (A ++ B)).

Definition n1 (t : Q) : Q := inject_Z (at_risk_at A t).
Definition n2 (t : Q) : Q := inject_Z (at_risk_at B t).
Definition d1 (t : Q) : Q := inject_Z (deaths_at A t).
Definition d2 (t : Q) : Q := inject_Z (deaths_at B t).

(** Events expected in the first group at [t] under equal hazards. *)
Definition expected1 (t : Q) : Q :=
  (d1 t + d2 t) * n1 t / (n1 t + n2 t).

(** Hypergeometric variance of the first group's event count at [t]. *)
Definition variance (t : Q) : Q :=
  let n := n1 t + n2 t in
  let d := d1 t + d2 t in
  n1 t * n2 t * d * (n - d) / (n * n * (n - 1)).

Definition observed_minus_expected : Q :=
  sum_over (fun t => d1 t - expected1 t) event_times.

Definition total_variance : Q := sum_over variance event_times.

Definition statistic : Q :=
  observed_minus_expected * observed_minus_expected / total_variance.

End Test.

(** Modelled from the spec: [logrank_test] belongs to the lifelines library,
    which is not part of the repository.  The spec asks for the two-sample
    log-rank test comparing the survival distributions of two subgroups and
    returning a test statistic and a p-value; this is its textbook form, the
    squared sum of observed minus expected events over its variance.  The
    arguments come in the order of the call: both duration columns, then both
    event columns.  [chisq_sf] is the survival function of the chi-squared
    distribution with one degree of freedom, which turns the statistic into
    the p-value; it is transcendental and stays a parameter. *)
Definition logrank_test (chisq_sf : Q -> Q)
    (durations_A durations_B : list Q)
    (event_observed_A event_observed_B : list bool) : StatisticalResult :=
  let A := combine durations_A event_observed_A in
  let B := combine durations_B event_observed_B in
  let x := statistic A B in
  {| test_statistic := x; p_value := chisq_sf x |}.

(** Two columns hold the same numbers when they agree entry by entry. *)
Definition same_numbers (xs ys : list Q) : Prop := Forall2 Qeq xs ys.

(** Two samples hold the same data when their rows agree in value. *)
Definition same_rows (A B : list observation) : Prop :=
  Forall2 (fun o o' => duration o == duration o' /\
                       event_observed o = event_observed o') A B.

End LogRank.

(** ** 4. Cox proportional-hazards regression (script lines 163-184) *)

Module Cox.

(** What a library call can do: return a value, possibly after issuing
    warnings, or raise. *)
Inductive warning := ConvergenceWarning | RuntimeWarning.
Inductive exn :=
  | ConvergenceError
  | ValueError
  | KeyError
  | Escalated (w : warning).

Inductive lib_result (A : Type) :=
  | Returns (v : A) (warnings : list warning)
  | Raises (e : exn).
Arguments Returns {A} v warnings.
Arguments Raises {A} e.

(** The actions of Python's warnings filter that matter here: drop the
    warning, show it, or turn it into an exception. *)
Inductive filter_action := ignore | default | error.

(** [warnings.filterwarnings('ignore')], script line 13. *)
Definition warnings_filter : filter_action := ignore.

(** How a run of the script ends: with what it printed and the warnings
    shown, or with the exception that aborted it. *)
Inductive outcome (A : Type) :=
  | Completed (stdout : A) (shown : list warning)
  | Aborted (e : exn).
Arguments Completed {A} stdout shown.
Arguments Aborted {A} e.

(** Columns of [cox_data] after [pd.get_dummies(..., drop_first=True)]: the
    first level of each categorical column ([free], [interviewer]) is the
    reference and gets no indicator. *)
Inductive covariate :=
  | num_interviews
  | avg_score
  | subscription_tier_premium
  | user_type_job_seeker
  | user_type_recruiter.

Definition covariates : list covariate :=
  [num_interviews; avg_score; subscription_tier_premium;
   user_type_job_seeker; user_type_recruiter].

Definition indicator (b : bool) : Q := if b then 1 else 0.

Definition cox_data (u : Generator.user) (c : covariate) : Q :=
  match c with
  | num_interviews => inject_Z (Generator.num_interviews u)
  | avg_score => Generator.avg_score u
  | subscription_tier_premium =>
      indicator (Generator.is_premium (Generator.tier u))
  | user_type_job_seeker =>
      indicator match Generator.utype u with
                | Generator.job_seeker => true | _ => false end
  | user_type_recruiter =>
      indicator match Generator.utype u with
                | Generator.recruiter => true | _ => false end
  end.

(** What the script reads off a fitted model: the coefficient of each
    covariate and the bounds of its 95% confidence interval. *)
Record CoxPHFitter := mkCox {
  params_ : covariate -> R;
  lower_bound : covariate -> R;
  upper_bound : covariate -> R
}.

Definition np_exp (x : R) : R := exp x.

Definition hr_premium (cph : CoxPHFitter) : R :=
  np_exp (params_ cph subscription_tier_premium).

Definition hr_interviews (cph : CoxPHFitter) : R :=
  np_exp (params_ cph num_interviews).

(** One bullet of the key findings: the values interpolated into it. *)
Record finding := mkFinding {
  about : covariate;
  lower_risk_pct : R;
  HR : R;
  ci_low : R;
  ci_high : R
}.

Definition key_findings (cph : CoxPHFitter) : list finding :=
  [ {| about := subscription_tier_premium;
       lower_risk_pct := ((1 - hr_premium cph) * 100)%R;
       HR := hr_premium cph;
       ci_low := np_exp (lower_bound cph subscription_tier_premium);
       ci_high := np_exp (upper_bound cph subscription_tier_premium) |};
    {| about := num_interviews;
       lower_risk_pct := ((1 - hr_interviews cph) * 100)%R;
       HR := hr_interviews cph;
       ci_low := np_exp (lower_bound cph num_interviews);
       ci_high := np_exp (upper_bound cph num_interviews) |} ].

Record summary_row := mkSummary {
  covariate_of : covariate;
  coef : R;
  exp_coef : R;
  coef_lower : R;
  coef_upper : R;
  exp_coef_lower : R;
  exp_coef_upper : R
}.

(** Modelled from the spec: [cph.summary] is computed by the lifelines
    library, which is not part of the repository.  Per the spec the report
    gives, for every covariate, the coefficient estimate, its confidence
    interval and the derived hazard ratios (exp of coefficient). *)
Definition summary (cph : CoxPHFitter) : list summary_row :=
  map (fun c =>
         {| covariate_of := c;
            coef := params_ cph c;
            exp_coef := exp (params_ cph c);
            coef_lower := lower_bound cph c;
            coef_upper := upper_bound cph c;
            exp_coef_lower := exp (lower_bound cph c);
            exp_coef_upper := exp (upper_bound cph c) |}) covariates.


(** A call made under a warnings filter.  The script has no [try]: an
    exception ends the run. *)
Definition call {A B : Type} (f : filter_action) (r : lib_result A)
    (k : A -> B) : outcome B :=
  match r with
  | Raises e => Aborted e
  | Returns v ws =>
      match f with
      | ignore => Completed (k v) []
      | default => Completed (k v) ws
      | error =>
          match ws with
          | [] => Completed (k v) []
          | w :: _ => Aborted (Escalated w)
          end
      end
  end.

(** The fit did not converge: the library raised its convergence error, or
    returned after warning that the iteration had not converged. *)
Definition failed_to_converge {A : Type} (r : lib_result A) : bool :=
  match r with
  | Raises ConvergenceError => true
  | Raises _ => false
  | Returns _ ws =>
      existsb (fun w => match w with ConvergenceWarning => true
                                | RuntimeWarning => false end) ws
  end.

Definition is_aborted {A : Type} (o : outcome A) : bool :=
  match o with Aborted _ => true | Completed _ _ => false end.

End Cox.

(** ** 5. The printed report (script lines 82-107 and 136-142) *)

Module Report.
Import KaplanMeier.

(** Rounding to the nearest integer, ties to even, as the float formatter
    rounds the exact value it is given. *)
Definition round_half_even (x : Q) : Z :=
  let f := Qfloor x in
  match Qcompare (x - inject_Z f) (1 # 2) with
  | Lt => f
  | Gt => (f + 1)%Z
  | Eq => if Z.even f then f else (f + 1)%Z
  end.

Definition digits (n : Z) : string :=
  NilZero.string_of_uint (N.to_uint (Z.to_N n)).

(** The format specification [:.1f]. *)
Definition format_1f (x : pyfloat) : string :=
  match x with
  | PosInf => "inf"
  | Finite q =>
      let n := Z.abs (round_half_even (q * 10)) in
      ((match Qcompare q 0 with Lt => "-" | _ => "" end)
         ++ digits (n / 10) ++ "." ++ digits (n mod 10))%string
  end.

Definition newline : string := String (ascii_of_nat 10) EmptyString.

Definition median_line (indent : string) (kmf : KaplanMeierFitter) : string :=
  (indent ++ format_1f (median_survival_time_ kmf) ++ " days")%string.

Definition retention_line (label : string) (kmf : KaplanMeierFitter) (t : Q)
  : string :=
  (label ++ format_1f (Finite (survival_function_at_times kmf t * 100)) ++ "%")
    %string.

(** Lines 82-87: the overall statistics. *)
Definition report_overall (data : list observation) : list string :=
  let kmf := fit data in
  [ (newline ++ "Overall Survival Statistics:")%string;
    median_line "  Median survival time: " kmf;
    retention_line "  30-day retention rate: " kmf 30;
    retention_line "  60-day retention rate: " kmf 60;
    retention_line "  90-day retention rate: " kmf 90;
    retention_line "  120-day retention rate: " kmf 120 ].

(** Lines 101-107 and 136-142: three lines per subgroup. *)
Definition report_subgroup (title : string) (data : list observation)
  : list string :=
  let kmf := fit data in
  [ (newline ++ title)%string;
    median_line "  Median survival: " kmf;
    retention_line "  90-day retention: " kmf 90 ].

End Report.

(** ** 6. The rest of the script: counts, subgroups, encoding, verdicts *)

Module Script.
Import Generator KaplanMeier.

(** [df[col].sum()] and [df[col].mean()] of an integer column. *)
Definition column_sum (f : user -> Z) (us : list user) : Z :=
  fold_right (fun u acc => (f u + acc)%Z) 0%Z us.

Definition column_mean (f : user -> Z) (us : list user) : Q :=
  inject_Z (column_sum f us) / inject_Z (Z.of_nat (List.length us)).

(** Lines 65-66: the two counts and percentages printed after generation. *)
Definition churned_users (us : list user) : Z := column_sum churned us.

Definition active_users (us : list user) : Z :=
  column_sum (fun u => (1 - churned u)%Z) us.

Definition churned_pct (us : list user) : Q := column_mean churned us * 100.

Definition active_pct (us : list user) : Q :=
  column_mean (fun u => (1 - churned u)%Z) us * 100.

Definition tier_eqb (a b : subscription_tier) : bool :=
  match a, b with
  | free, free | premium, premium => true
  | _, _ => false
  end.

Definition user_type_eqb (a b : user_type) : bool :=
  match a, b with
  | job_seeker, job_seeker | interviewer, interviewer
  | recruiter, recruiter => true
  | _, _ => false
  end.

(** Lines 92-93: [users_retention[users_retention['subscription_tier'] == ...]]. *)
Definition free_users (us : list user) : list user :=
  filter (fun u => tier_eqb (tier u) free) us.

Definition premium_users (us : list user) : list user :=
  filter (fun u => tier_eqb (tier u) premium) us.

(** Lines 121-123: the label given to each row. *)
Definition activity_level (x : Z) : string :=
  if (5 <=? x)%Z then "High (5+ interviews)" else "Low (<5 interviews)".

(** Lines 127-128: the rows selected by label. *)
Definition low_activity (us : list user) : list user :=
  filter (fun u => String.eqb (activity_level (num_interviews u))
                              "Low (<5 interviews)") us.

Definition high_activity (us : list user) : list user :=
  filter (fun u => String.eqb (activity_level (num_interviews u))
                              "High (5+ interviews)") us.

(** The columns a subgroup hands to the fitter and to the log-rank test. *)
Definition durations (us : list user) : list Q := map time_observed us.

Definition events (us : list user) : list bool :=
  map (fun u => negb (Z.eqb (churned u) 0)) us.

(** Lines 110-113 and 145-148: the two log-rank calls. *)
Definition logrank_result (chisq_sf : Q -> Q) (us : list user)
  : LogRank.StatisticalResult :=
  LogRank.logrank_test chisq_sf
    (durations (free_users us)) (durations (premium_users us))
    (events (free_users us)) (events (premium_users us)).

Definition logrank_result_activity (chisq_sf : Q -> Q) (us : list user)
  : LogRank.StatisticalResult :=
  LogRank.logrank_test chisq_sf
    (durations (low_activity us)) (durations (high_activity us))
    (events (low_activity us)) (events (high_activity us)).

(** Lines 118 and 153: the verdict printed on the console. *)
Definition verdict (p : Q) : string :=
  if Qle_bool 0.05 p then "NOT SIGNIFICANT" else "SIGNIFICANT".

Definition result_line (r : LogRank.StatisticalResult) : string :=
  ("  Result: " ++ verdict (LogRank.p_value r) ++ " at α=0.05")%string.

(** Zero-padding of a digit string to a given width. *)
Fixpoint zeros (n : nat) : string :=
  match n with
  | O => EmptyString
  | S n' => String "0" (zeros n')
  end.

Definition pad_left (width : nat) (s : string) : string :=
  (zeros (width - String.length s) ++ s)%string.

(** The format specification [:.kf] for a finite value. *)
Definition format_f (k : nat) (q : Q) : string :=
  let scale := (10 ^ Z.of_nat k)%Z in
  let n := Z.abs (Report.round_half_even (q * inject_Z scale)) in
  ((match Qcompare q 0 with Lt => "-" | _ => "" end)
     ++ Report.digits (n / scale) ++ "."
     ++ pad_left k (Report.digits (n mod scale)))%string.

(** Lines 270 and 276: the same test as the written summary words it. *)
Definition summary_logrank_line (r : LogRank.StatisticalResult) : string :=
  ("   • Log-rank test: p = " ++ format_f 6 (LogRank.p_value r)
     ++ " (HIGHLY SIGNIFICANT)")%string.

(** A retention rate as printed, in tenths of a percent: the integer whose
    digits [:.1f] writes. *)
Definition retention_tenths (kmf : KaplanMeierFitter) (t : Q) : Z :=
  Report.round_half_even (survival_function_at_times kmf t * 100 * 10).

(** Line 167, [pd.get_dummies(..., drop_first=True)]: the levels of a column
    are the values present in it, in sorted order, and the first one gets no
    indicator column.  The sorted lists of all possible values follow. *)
Definition tier_levels : list subscription_tier := [free; premium].
Definition user_type_levels : list user_type :=
  [interviewer; job_seeker; recruiter].

Definition tier_name (t : subscription_tier) : string :=
  match t with free => "free" | premium => "premium" end.

Definition user_type_name (t : user_type) : string :=
  match t with
  | job_seeker => "job_seeker"
  | interviewer => "interviewer"
  | recruiter => "recruiter"
  end.

Definition present {A : Type} (eqb : A -> A -> bool) (levels col : list A)
  : list A :=
  filter (fun l => existsb (eqb l) col) levels.

Definition dummy_columns (us : list user) : list string :=
  map (fun l => ("subscription_tier_" ++ tier_name l)%string)
      (tl (present tier_eqb tier_levels (map tier us)))
  ++ map (fun l => ("user_type_" ++ user_type_name l)%string)
         (tl (present user_type_eqb user_type_levels (map utype us))).

(** The covariate columns of [cox_data]: what is left of the selected columns
    once the duration and event columns are set aside, then the indicators. *)
Definition cox_columns (us : list user) : list string :=
  "num_interviews"%string :: "avg_score"%string :: dummy_columns us.

Definition covariate_name (c : Cox.covariate) : string :=
  match c with
  | Cox.num_interviews => "num_interviews"
  | Cox.avg_score => "avg_score"
  | Cox.subscription_tier_premium => "subscription_tier_premium"
  | Cox.user_type_job_seeker => "user_type_job_seeker"
  | Cox.user_type_recruiter => "user_type_recruiter"
  end.

(** [cph.params_[name]]: the position of a fitted column, [None] standing
    for the [KeyError] of a name that is not a column. *)
Fixpoint index_of (name : string) (cols : list string) : option nat :=
  match cols with
  | [] => None
  | c :: cols' =>
      if String.eqb c name then Some O
      else option_map S (index_of name cols')
  end.

Definition params_key (us : list user) (c : Cox.covariate) : option nat :=
  index_of (covariate_name c) (cox_columns us).

(** The reading of a key finding (lines 181-184), on the values the script
    computes before it rounds them for printing: the percentage of lower
    churn risk against the sign of the coefficient and against the hazard
    ratio, and the hazard ratio against the ends of its interval. *)
Definition finding_reading (cph : Cox.CoxPHFitter) (f : Cox.finding) : Prop :=
  (Cox.lower_risk_pct f <= 100 /\
   (Cox.params_ cph (Cox.about f) <= 0 -> 0 <= Cox.lower_risk_pct f) /\
   (0 <= Cox.params_ cph (Cox.about f) -> Cox.lower_risk_pct f <= 0) /\
   (0 < Cox.lower_risk_pct f -> Cox.params_ cph (Cox.about f) < 0) /\
   (Cox.lower_risk_pct f < 0 -> 0 < Cox.params_ cph (Cox.about f)) /\
   (Cox.HR f <= / 2 -> 50 <= Cox.lower_risk_pct f) /\
   (50 < Cox.lower_risk_pct f -> Cox.HR f < / 2) /\
   (Cox.lower_bound cph (Cox.about f) <= Cox.params_ cph (Cox.about f) ->
    Cox.ci_low f <= Cox.HR f) /\
   (Cox.params_ cph (Cox.about f) <= Cox.upper_bound cph (Cox.about f) ->
    Cox.HR f <= Cox.ci_high f) /\
   (Cox.upper_bound cph (Cox.about f) <= 0 -> Cox.ci_high f <= 1))%R.

(** Whether a text occurs somewhere in a line, and whether a character
    does. *)
Fixpoint contains (needle hay : string) : bool :=
  String.prefix needle hay
  || match hay with
     | EmptyString => false
     | String _ hay' => contains needle hay'
     end.

Fixpoint has_char (c : ascii) (s : string) : bool :=
  match s with
  | EmptyString => false
  | String a s' => Ascii.eqb a c || has_char c s'
  end.

End Script.

(** ** 7. The regression step as the script runs it (lines 163-184) *)

Module Regression.
Import Generator Cox Script.

(** Both subscription tiers occur in the table. *)
Definition both_tiers (us : list user) : Prop :=
  (exists u, In u us /\ tier u = free) /\
  (exists v, In v us /\ tier v = premium).

(** The same as a test on the tier column. *)
Definition tiers_present (us : list user) : bool :=
  existsb (tier_eqb free) (map tier us)
  && existsb (tier_eqb premium) (map tier us).

Definition key_present (us : list user) (c : covariate) : bool :=
  match params_key us c with Some _ => true | None => false end.

(** [cph.params_[name]] and [cph.confidence_intervals_.loc[name, bound]]:
    the entry of a fitted column, [None] standing for the [KeyError] of a
    name that is not a column of the table the model was fitted on. *)
Definition series_get (us : list user) (series : covariate -> R)
    (c : covariate) : option R :=
  if key_present us c then Some (series c) else None.


(** The rows of [cph.summary]: one per fitted covariate. *)
Definition printed_summary (us : list user) (cph : CoxPHFitter)
  : list summary_row :=
  filter (fun row => key_present us (covariate_of row)) (summary cph).

Definition finding_for (c : covariate) (b lo hi : R) : finding :=
  {| about := c;
     lower_risk_pct := ((1 - np_exp b) * 100)%R;
     HR := np_exp b;
     ci_low := np_exp lo;
     ci_high := np_exp hi |}.

(** Lines 173-184, once the fit has returned: the summary is printed, the
    two coefficients are read (lines 177-178) and then the ends of their
    intervals (lines 182 and 184).  A missing key ends the run. *)
Definition after_fit (us : list user) (cph : CoxPHFitter)
  : outcome (list summary_row * list finding) :=
  match series_get us (params_ cph) subscription_tier_premium with
  | None => Aborted KeyError
  | Some b1 =>
      match series_get us (params_ cph) num_interviews with
      | None => Aborted KeyError
      | Some b2 =>
          match series_get us (lower_bound cph) subscription_tier_premium,
                series_get us (upper_bound cph) subscription_tier_premium,
                series_get us (lower_bound cph) num_interviews,
                series_get us (upper_bound cph) num_interviews with
          | Some l1, Some u1, Some l2, Some u2 =>
              Completed (printed_summary us cph,
                         [ finding_for subscription_tier_premium b1 l1 u1;
                           finding_for num_interviews b2 l2 u2 ]) []
          | _, _, _, _ => Aborted KeyError
          end
      end
  end.

(** What follows a call runs only if the call completed. *)
Definition join {A : Type} (o : outcome (outcome A)) : outcome A :=
  match o with
  | Aborted e => Aborted e
  | Completed (Aborted e) _ => Aborted e
  | Completed (Completed out shown') shown => Completed out (shown ++ shown')
  end.

(** Script lines 170-184 on the table [us]: fit under the script's warnings
    filter, then report.  [fitted] is what [cph.fit] did. *)
Definition regression_step (us : list user)
    (fitted : lib_result CoxPHFitter)
  : outcome (list summary_row * list finding) :=
  join (call warnings_filter fitted (after_fit us)).

End Regression.

(** ** Sample inputs *)

Module Examples.
Import Generator KaplanMeier.

(** A premium user with six interviews whose unit variate is one half. *)
Definition d_premium_active : draw := mkDraw 3 job_seeker premium 6 80 (1 # 2).

(** A free user with two interviews whose unit variate is three. *)
Definition d_free_idle : draw := mkDraw 12 recruiter free 2 71 3.

Definition two_draws : list draw := [d_premium_active; d_free_idle].

(** A single subject whose event is observed at time 0. *)
Definition event_at_zero : list observation := [(0, true)].

(** Five subjects, three events, all durations positive. *)
Definition five_subjects : list observation :=
  [(30, true); (45, false); (60, true); (100, true); (120, false)].

(** Three subjects, all censored at the end of the study. *)
Definition all_censored : list observation :=
  [(120, false); (120, false); (120, false)].

(** Three subjects, one of whom churned on day 100. *)
Definition one_late_event : list observation :=
  [(100, true); (120, false); (120, false)].

(** A fitted model with every coefficient at zero. *)
Definition flat_model : Cox.CoxPHFitter :=
  Cox.mkCox (fun _ => 0%R) (fun _ => 0%R) (fun _ => 0%R).

(** A fit that returned after warning that it had not converged. *)
Definition warned_fit : Cox.lib_result Cox.CoxPHFitter :=
  Cox.Returns flat_model [Cox.ConvergenceWarning].

(** Duration columns of two subgroups, written in two ways: the primed
    columns hold the same numbers as unreduced fractions. *)
Definition durations_free : list Q := [1 # 2; 3; 7; 120].
Definition durations_free' : list Q := [2 # 4; 6 # 2; 7; 240 # 2].
Definition durations_premium : list Q := [5; 120; 120].
Definition durations_premium' : list Q := [10 # 2; 120; 120].
Definition events_free : list bool := [true; true; true; false].
Definition events_premium : list bool := [true; false; false].

(** A stand-in for the chi-squared survival function: any map from the
    statistic to a p-value will do where only determinism is at stake. *)
Definition stand_in_sf (x : Q) : Q := 1 / (1 + x).

End Examples.

(** ** More sample inputs *)

Module Samples.
Import Generator.

(** A premium interviewer with four interviews whose churn time falls far
    beyond the study. *)
Definition d_premium_idle : draw := mkDraw 30 interviewer premium 4 90 5.

(** A free job seeker with one interview who churns after a month. *)
Definition d_free_early : draw := mkDraw 0 job_seeker free 1 60 (1 # 2).

Definition four_draws : list draw :=
  [d_free_early; Examples.d_premium_active; Examples.d_free_idle;
   d_premium_idle].

End Samples.

(** ** Generator: basic facts *)

Module GeneratorFacts.
Import Generator.

Lemma number_from_inv (ds : list draw) :
  forall id r, In r (number_from id ds) ->
    exists i d, In d ds /\ r = simulate_user i d.
Proof.
  induction ds as [|d ds IH]; intros id r Hin; simpl in Hin.
  - contradiction.
  - destruct Hin as [<- | Hin].
    + exists id, d. split; [now left | reflexivity].
    + destruct (IH _ _ Hin) as (i & d' & Hd & ->).
      exists i, d'. split; [now right | reflexivity].
Qed.

Lemma generate_inv (ds : list draw) (r : user) :
  In r (generate ds) -> exists i d, In d ds /\ r = simulate_user i d.
Proof. apply number_from_inv. Qed.

Lemma length_number_from (ds : list draw) :
  forall id, List.length (number_from id ds) = List.length ds.
Proof. induction ds; intros; simpl; auto. Qed.

Lemma np_minimum_Qmin (a b : Q) : np_minimum a b == Qmin a b.
Proof.
  unfold np_minimum. destruct (Qle_bool b a) eqn:E.
  - apply Qle_bool_iff in E. symmetry. now apply Q.min_r.
  - symmetry. apply Q.min_l. apply Qlt_le_weak. apply Qnot_le_lt.
    intro H. apply Qle_bool_iff in H. congruence.
Qed.

Lemma churn_indicator_spec (t : Q) :
  churn_indicator t = 1%Z <-> t <= study_end.
Proof.
  unfold churn_indicator. rewrite <- Qle_bool_iff.
  destruct (Qle_bool t study_end); split; intro; congruence.
Qed.

Lemma churn_indicator_bit (t : Q) :
  churn_indicator t = 0%Z \/ churn_indicator t = 1%Z.
Proof. unfold churn_indicator. destruct (Qle_bool t study_end); auto. Qed.

Lemma hazard_of_cases (t : subscription_tier) (k : Z) :
  hazard_of t k ==
    0.015 * (if is_premium t then 0.43 else 1)
          * (if (5 <=? k)%Z then 0.32 else 1).
Proof.
  unfold hazard_of, adjust_activity, adjust_subscription, initial_hazard.
  destruct (is_premium t), (5 <=? k)%Z; ring.
Qed.

Lemma hazard_of_pos (t : subscription_tier) (k : Z) : 0 < hazard_of t k.
Proof.
  unfold hazard_of, adjust_activity, adjust_subscription, initial_hazard.
  destruct (is_premium t), (5 <=? k)%Z; reflexivity.
Qed.

Lemma scale_times_hazard (h : Q) : 0 < h -> exponential_scale h * h == 1.
Proof.
  intro Hh. unfold exponential_scale. field.
  intro H0. rewrite H0 in Hh. discriminate.
Qed.

End GeneratorFacts.

(** ** Kaplan-Meier: basic facts *)

Module KaplanMeierFacts.
Import KaplanMeier.

Lemma filter_length_le {X : Type} (p q : X -> bool) (l : list X) :
  (forall x, p x = true -> q x = true) ->
  (List.length (filter p l) <= List.length (filter q l))%nat.
Proof.
  intro Hpq. induction l as [|x l IH]; simpl; [lia|].
  destruct (p x) eqn:Ep.
  - rewrite (Hpq _ Ep). simpl. lia.
  - destruct (q x); simpl; lia.
Qed.

Lemma deaths_le_at_risk (data : list observation) (t : Q) :
  (0 <= deaths_at data t <= at_risk_at data t)%Z.
Proof.
  unfold deaths_at, at_risk_at, count. split; [lia|].
  apply Nat2Z.inj_le, filter_length_le.
  intros o Ho. apply andb_prop in Ho as [Ho _].
  apply Qeq_bool_iff in Ho. apply Qle_bool_iff.
  rewrite Ho. apply Qle_refl.
Qed.

Lemma event_table_ok (data : list observation) :
  Forall row_ok (event_table data).
Proof.
  unfold event_table. apply Forall_forall. intros r Hr.
  apply in_map_iff in Hr as (t & <- & _).
  unfold row_ok; simpl. apply deaths_le_at_risk.
Qed.

Lemma factor_unit (r : table_row) : row_ok r -> unit_interval (factor r).
Proof.
  unfold row_ok, factor, unit_interval. intros [Hd Hn].
  destruct (Z.eq_dec (at_risk r) 0) as [E | E].
  - assert (observed r = 0%Z) as -> by lia. rewrite E.
    split; discriminate.
  - assert (Hpos : 0 < inject_Z (at_risk r)).
    { unfold Qlt; simpl; lia. }
    assert (H0 : 0 <= inject_Z (observed r) / inject_Z (at_risk r)).
    { apply Qle_shift_div_l; [exact Hpos|].
      rewrite Qmult_0_l. unfold Qle; simpl; lia. }
    assert (H1 : inject_Z (observed r) / inject_Z (at_risk r) <= 1).
    { apply Qle_shift_div_r; [exact Hpos|].
      rewrite Qmult_1_l. rewrite <- Zle_Qle. exact Hn. }
    generalize dependent (inject_Z (observed r) / inject_Z (at_risk r)).
    intros x ? ?. split; lra.
Qed.

Lemma factor_no_deaths (r : table_row) : observed r = 0%Z -> factor r == 1.
Proof.
  unfold factor. intros ->. unfold Qdiv. rewrite Qmult_0_l. reflexivity.
Qed.

(** The running product stays between 0 and its starting value. *)
Lemma step_cumprod_bounds (rows : list table_row) (t : Q) :
  Forall row_ok rows ->
  forall acc, 0 <= acc ->
    0 <= step_at (cumprod acc rows) t acc /\
    step_at (cumprod acc rows) t acc <= acc.
Proof.
  induction 1 as [|r rows Hr _ IH]; intros acc Hacc; simpl.
  - split; [exact Hacc | apply Qle_refl].
  - destruct (Qle_bool (event_at r) t).
    + destruct (factor_unit r Hr) as [F0 F1].
      assert (Hacc' : 0 <= acc * factor r) by nra.
      destruct (IH _ Hacc') as [L U].
      split; [exact L|]. nra.
    + split; [exact Hacc | apply Qle_refl].
Qed.

(** Reading the running product at a later time gives no larger a value. *)
Lemma step_cumprod_mono (rows : list table_row) (s t : Q) :
  Forall row_ok rows -> s <= t ->
  forall acc, 0 <= acc ->
    step_at (cumprod acc rows) t acc <= step_at (cumprod acc rows) s acc.
Proof.
  intros Hrows Hst. induction Hrows as [|r rows Hr Hrows IH];
    intros acc Hacc; simpl.
  - apply Qle_refl.
  - destruct (factor_unit r Hr) as [F0 F1].
    assert (Hacc' : 0 <= acc * factor r) by nra.
    destruct (Qle_bool (event_at r) s) eqn:Es.
    + assert (Et : Qle_bool (event_at r) t = true).
      { apply Qle_bool_iff. apply Qle_bool_iff in Es.
        eapply Qle_trans; eassumption. }
      rewrite Et. apply IH, Hacc'.
    + destruct (Qle_bool (event_at r) t).
      * destruct (step_cumprod_bounds rows t Hrows _ Hacc') as [_ U]. nra.
      * apply Qle_refl.
Qed.

(** Rows without deaths up to [t] leave the running product unchanged. *)
Lemma step_cumprod_flat (rows : list table_row) (t : Q) :
  (forall r, In r rows -> event_at r <= t -> observed r = 0%Z) ->
  forall acc, step_at (cumprod acc rows) t acc == acc.
Proof.
  induction rows as [|r rows IH]; intros Hflat acc; simpl.
  - reflexivity.
  - destruct (Qle_bool (event_at r) t) eqn:E.
    + rewrite IH by (intros; apply Hflat; [now right | assumption]).
      rewrite (factor_no_deaths r).
      * apply Qmult_1_r.
      * apply Hflat; [now left | now apply Qle_bool_iff].
    + reflexivity.
Qed.

Lemma first_at_most_flat (rows : list table_row) (q : Q) :
  (forall r, In r rows -> observed r = 0%Z) ->
  forall acc, q < acc -> first_at_most q (cumprod acc rows) = PosInf.
Proof.
  induction rows as [|r rows IH]; intros Hflat acc Hacc; simpl.
  - reflexivity.
  - assert (E : acc * factor r == acc).
    { rewrite (factor_no_deaths r) by (apply Hflat; now left).
      apply Qmult_1_r. }
    destruct (Qle_bool (acc * factor r) q) eqn:Eb.
    + apply Qle_bool_iff in Eb. rewrite E in Eb. lra.
    + apply IH; [intros; apply Hflat; now right | rewrite E; exact Hacc].
Qed.

Lemma filter_nil_length {X : Type} (p : X -> bool) (l : list X) :
  (forall x, In x l -> p x = false) -> List.length (filter p l) = 0%nat.
Proof.
  induction l as [|x l IH]; intro H; simpl; [reflexivity|].
  rewrite (H x) by now left. apply IH. intros; apply H; now right.
Qed.

Lemma deaths_at_none (data : list observation) (t : Q) :
  (forall o, In o data -> event_observed o = true -> ~ duration o == t) ->
  deaths_at data t = 0%Z.
Proof.
  intro H. unfold deaths_at, count. rewrite filter_nil_length; [reflexivity|].
  intros o Ho. destruct (event_observed o) eqn:Ev.
  - rewrite andb_true_r. destruct (Qeq_bool (duration o) t) eqn:E; auto.
    apply Qeq_bool_iff in E. exfalso. eapply H; eauto.
  - apply andb_false_r.
Qed.

Lemma has_event_false (data : list observation) :
  has_event data = false ->
  forall o, In o data -> event_observed o = false.
Proof.
  unfold has_event. intros H o Ho.
  destruct (event_observed o) eqn:E; auto.
  assert (existsb event_observed data = true)
    by (apply existsb_exists; eauto).
  congruence.
Qed.

Lemma event_table_no_events (data : list observation) :
  has_event data = false ->
  forall r, In r (event_table data) -> observed r = 0%Z.
Proof.
  intros H r Hr. unfold event_table in Hr.
  apply in_map_iff in Hr as (t & <- & _). simpl.
  apply deaths_at_none. intros o Ho Ev.
  rewrite (has_event_false data H o Ho) in Ev. discriminate.
Qed.

Lemma survival_no_events (data : list observation) (t : Q) :
  has_event data = false -> survival data t == 1.
Proof.
  intro H. unfold survival, survival_function_at_times, fit; simpl.
  apply step_cumprod_flat. intros r Hr _.
  now apply event_table_no_events with (data := data).
Qed.

Lemma median_no_events (data : list observation) :
  has_event data = false -> median_survival_time_ (fit data) = PosInf.
Proof.
  intro H. unfold fit; simpl. apply first_at_most_flat.
  - now apply event_table_no_events.
  - reflexivity.
Qed.

End KaplanMeierFacts.

(** ** Claims about the simulated data *)

Module GeneratorClaims.
Import Generator GeneratorFacts Examples.

(** C1: for every generated user record, the observed duration equals
    min(simulated time-to-churn, 120), the churn indicator equals 1 if and
    only if the simulated time-to-churn is at most 120, and hence the
    observed duration never exceeds the study horizon. *)
Theorem censoring_invariant (ds : list draw) (r : user) :
  In r (generate ds) ->
  time_observed r == Qmin (time_to_churn r) 120 /\
  (churned r = 1%Z <-> time_to_churn r <= 120) /\
  time_observed r <= 120.
Proof.
  intro Hr. apply generate_inv in Hr as (i & d & _ & ->). simpl.
  assert (Hmin := np_minimum_Qmin
    (np_random_exponential
       (exponential_scale (hazard_of (drawn_tier d) (drawn_interviews d)))
       (std_exponential d)) study_end).
  repeat split.
  - exact Hmin.
  - apply churn_indicator_spec.
  - apply churn_indicator_spec.
  - rewrite Hmin. apply Q.le_min_r.
Qed.

Lemma censoring_invariant_witness :
  In (simulate_user 2 d_free_idle) (generate two_draws) /\
  time_observed (simulate_user 2 d_free_idle) <= 120.
Proof.
  split.
  - right. left. reflexivity.
  - apply (censoring_invariant two_draws (simulate_user 2 d_free_idle)).
    right. left. reflexivity.
Defined.

(** C2: for every generated record the hazard starts at 0.015 and is
    multiplied by 0.43 for the premium tier and, cumulatively, by 0.32 for
    five or more interviews; a record in neither category keeps 0.015. *)
Theorem hazard_scaling (ds : list draw) (r : user) :
  In r (generate ds) ->
  baseline_hazard r ==
    0.015 * (if is_premium (tier r) then 0.43 else 1)
          * (if (5 <=? num_interviews r)%Z then 0.32 else 1) /\
  (tier r = free -> (num_interviews r < 5)%Z -> baseline_hazard r = 0.015).
Proof.
  intro Hr. apply generate_inv in Hr as (i & d & _ & ->). simpl. split.
  - apply hazard_of_cases.
  - intros Ht Hk. unfold hazard_of, adjust_activity, adjust_subscription.
    rewrite Ht. simpl.
    destruct (Z.leb_spec 5 (drawn_interviews d)); [lia | reflexivity].
Qed.

Lemma hazard_scaling_witness :
  In (simulate_user 1 d_premium_active) (generate two_draws) /\
  baseline_hazard (simulate_user 1 d_premium_active) == 0.015 * 0.43 * 0.32.
Proof.
  split.
  - left. reflexivity.
  - apply (hazard_scaling two_draws (simulate_user 1 d_premium_active)).
    left. reflexivity.
Defined.

(** C3: for every record the time-to-churn is the exponential sampler's
    output for the scale 1 / hazard, that is, for the rate equal to the
    record's hazard: the time multiplied by the hazard is the unit-rate
    variate the sampler drew. *)
Theorem churn_time_rate (ds : list draw) (r : user) :
  In r (generate ds) ->
  exists d, In d ds /\
    time_to_churn r =
      np_random_exponential (exponential_scale (baseline_hazard r))
                            (std_exponential d) /\
    exponential_scale (baseline_hazard r) = 1 / baseline_hazard r /\
    exponential_scale (baseline_hazard r) * baseline_hazard r == 1 /\
    baseline_hazard r * time_to_churn r == std_exponential d.
Proof.
  intro Hr. apply generate_inv in Hr as (i & d & Hd & ->).
  exists d. simpl.
  pose proof (hazard_of_pos (drawn_tier d) (drawn_interviews d)) as Hpos.
  pose proof (scale_times_hazard _ Hpos) as Hone.
  repeat split; try assumption.
  unfold np_random_exponential.
  rewrite Qmult_assoc, (Qmult_comm (hazard_of _ _)), Hone.
  apply Qmult_1_l.
Qed.

Lemma churn_time_rate_witness :
  exists d, In d two_draws /\
    time_to_churn (simulate_user 2 d_free_idle) =
      np_random_exponential
        (exponential_scale (baseline_hazard (simulate_user 2 d_free_idle)))
        (std_exponential d) /\
    exponential_scale (baseline_hazard (simulate_user 2 d_free_idle)) =
      1 / baseline_hazard (simulate_user 2 d_free_idle) /\
    exponential_scale (baseline_hazard (simulate_user 2 d_free_idle))
      * baseline_hazard (simulate_user 2 d_free_idle) == 1 /\
    baseline_hazard (simulate_user 2 d_free_idle)
      * time_to_churn (simulate_user 2 d_free_idle) == std_exponential d.
Proof.
  apply (churn_time_rate two_draws (simulate_user 2 d_free_idle)).
  right. left. reflexivity.
Defined.

(** C10: for every generated record the hazard is strictly positive and is
    one of 0.015, 0.015*0.43, 0.015*0.32, 0.015*0.43*0.32, so the scale
    1 / hazard is a true reciprocal (no division by zero), and the simulated
    time-to-churn is non-negative, the sampler's unit variates being
    non-negative. *)
Theorem hazard_positive (ds : list draw) (r : user) :
  Forall (fun d => 0 <= std_exponential d) ds ->
  In r (generate ds) ->
  0 < baseline_hazard r /\
  (exists v, In v hazard_values /\ baseline_hazard r == v) /\
  ~ baseline_hazard r == 0 /\
  (1 / baseline_hazard r) * baseline_hazard r == 1 /\
  0 <= time_to_churn r.
Proof.
  intros Hds Hr. apply generate_inv in Hr as (i & d & Hd & ->). simpl.
  pose proof (hazard_of_pos (drawn_tier d) (drawn_interviews d)) as Hpos.
  assert (He : 0 <= std_exponential d).
  { rewrite Forall_forall in Hds. now apply Hds. }
  split; [exact Hpos|]. split; [|split; [|split]].
  - unfold hazard_values, hazard_of, adjust_activity, adjust_subscription,
      initial_hazard.
    destruct (is_premium (drawn_tier d)), (5 <=? drawn_interviews d)%Z;
      eexists; (split; [|reflexivity]); simpl; auto.
  - intro H0. rewrite H0 in Hpos. discriminate.
  - apply (scale_times_hazard _ Hpos).
  - unfold np_random_exponential, exponential_scale.
    apply Qmult_le_0_compat; [|exact He].
    apply Qlt_le_weak. unfold Qdiv. rewrite Qmult_1_l.
    now apply Qinv_lt_0_compat.
Qed.

Lemma hazard_positive_witness :
  Forall (fun d => 0 <= std_exponential d) two_draws /\
  0 <= time_to_churn (simulate_user 1 d_premium_active).
Proof.
  assert (H : Forall (fun d => 0 <= std_exponential d) two_draws).
  { repeat constructor; discriminate. }
  split; [exact H|].
  apply (hazard_positive two_draws (simulate_user 1 d_premium_active) H).
  left. reflexivity.
Defined.

End GeneratorClaims.

(** ** Claims about the survival estimate *)

Module KaplanMeierClaims.
Import KaplanMeier KaplanMeierFacts Examples.

Lemma survival_bounds (data : list observation) (t : Q) :
  0 <= survival data t /\ survival data t <= 1.
Proof.
  unfold survival, survival_function_at_times, fit; simpl.
  apply step_cumprod_bounds; [apply event_table_ok | discriminate].
Qed.

Lemma survival_mono (data : list observation) (s t : Q) :
  s <= t -> survival data t <= survival data s.
Proof.
  intro Hst. unfold survival, survival_function_at_times, fit; simpl.
  apply step_cumprod_mono; [apply event_table_ok | exact Hst | discriminate].
Qed.

Lemma survival_before_first_event (data : list observation) (t : Q) :
  (forall o, In o data -> event_observed o = true -> t < duration o) ->
  survival data t == 1.
Proof.
  intro Hlate. unfold survival, survival_function_at_times, fit; simpl.
  apply step_cumprod_flat. intros r Hr Hle.
  unfold event_table in Hr. apply in_map_iff in Hr as (u & <- & _).
  simpl in *. apply deaths_at_none. intros o Ho Ev Heq.
  specialize (Hlate o Ho Ev). rewrite Heq in Hlate.
  apply (Qlt_irrefl t). eapply Qlt_le_trans; eassumption.
Qed.

(** X13: on the script's own data the estimate starts at 1 as soon as every
    unit variate drawn by the exponential sampler is positive: no generated
    user then churns at time 0. *)
Lemma generated_survival_at_zero (ds : list Generator.draw) :
  Forall (fun d => 0 < Generator.std_exponential d) ds ->
  survival (observations (Generator.generate ds)) 0 == 1.
Proof.
  intro Hds. apply survival_before_first_event. intros o Ho _.
  unfold observations in Ho. apply in_map_iff in Ho as (u & <- & Hu).
  apply GeneratorFacts.generate_inv in Hu as (i & d & Hd & ->).
  unfold duration; simpl.
  rewrite Forall_forall in Hds. specialize (Hds d Hd).
  pose proof (GeneratorFacts.hazard_of_pos
                (Generator.drawn_tier d) (Generator.drawn_interviews d)) as Hh.
  unfold Generator.np_minimum.
  destruct (Qle_bool _ _); [reflexivity|].
  unfold Generator.np_random_exponential, Generator.exponential_scale.
  apply Qmult_lt_0_compat; [|exact Hds].
  unfold Qdiv. rewrite Qmult_1_l. now apply Qinv_lt_0_compat.
Qed.

Lemma generated_survival_at_zero_witness :
  Forall (fun d => 0 < Generator.std_exponential d) Samples.four_draws /\
  survival (observations (Generator.generate Samples.four_draws)) 0 == 1.
Proof.
  assert (H : Forall (fun d => 0 < Generator.std_exponential d)
                     Samples.four_draws) by (repeat constructor).
  split; [exact H|].
  apply (generated_survival_at_zero Samples.four_draws H).
Defined.

(** C4, as stated, fails at time 0: a sample whose only subject has its
    event at duration 0 has the product-limit estimate 0 there, not 1. *)
Lemma survival_at_zero_counterexample :
  survival event_at_zero 0 == 0 /\ ~ survival event_at_zero 0 == 1.
Proof. split; [reflexivity | discriminate]. Qed.

(** C4, amended: for every sample of (duration, event-indicator) pairs the
    product-limit estimate is non-increasing in time and lies in [0,1] at
    every time, in particular at the checkpoints 30, 60, 90 and 120; it
    equals 1 at time 0 when every observed event has a positive duration. *)
Theorem survival_estimate_properties (data : list observation) :
  (forall s t, s <= t -> survival data t <= survival data s) /\
  (forall t, 0 <= survival data t /\ survival data t <= 1) /\
  Forall (fun c => 0 <= survival data c /\ survival data c <= 1) checkpoints /\
  ((forall o, In o data -> event_observed o = true -> 0 < duration o) ->
   survival data 0 == 1).
Proof.
  split; [|split; [|split]].
  - intros s t. apply survival_mono.
  - apply survival_bounds.
  - apply Forall_forall. intros c _. apply survival_bounds.
  - apply survival_before_first_event.
Qed.

Lemma survival_estimate_properties_witness :
  survival five_subjects 90 <= survival five_subjects 30 /\
  survival five_subjects 0 == 1.
Proof.
  destruct (survival_estimate_properties five_subjects) as (Hm & _ & _ & Hz).
  split.
  - apply Hm. discriminate.
  - apply Hz. intros o Ho Ev.
    repeat (destruct Ho as [<- | Ho]; [reflexivity || discriminate Ev|]).
    contradiction.
Defined.

End KaplanMeierClaims.

(** ** Claims about the printed report *)

Module ReportClaims.
Import KaplanMeier KaplanMeierFacts Report Examples.

Lemma round_half_even_comp (x y : Q) :
  x == y -> round_half_even x = round_half_even y.
Proof.
  intro E. unfold round_half_even.
  rewrite (Qfloor_comp x y E).
  assert (E' : x - inject_Z (Qfloor y) == y - inject_Z (Qfloor y))
    by (rewrite E; reflexivity).
  rewrite (Qcompare_comp _ _ E' (1 # 2) (1 # 2) (Qeq_refl _)).
  reflexivity.
Qed.

Lemma format_1f_comp (x y : Q) :
  x == y -> format_1f (Finite x) = format_1f (Finite y).
Proof.
  intro E. unfold format_1f.
  rewrite (round_half_even_comp (x * 10) (y * 10))
    by (rewrite E; reflexivity).
  rewrite (Qcompare_comp x y E 0 0 (Qeq_refl _)).
  reflexivity.
Qed.

Lemma retention_line_no_events (label : string) (data : list observation)
    (t : Q) :
  has_event data = false ->
  retention_line label (fit data) t = (label ++ "100.0%")%string.
Proof.
  intro H. unfold retention_line.
  rewrite (format_1f_comp _ 100).
  - reflexivity.
  - change (survival data t * 100 == 100).
    rewrite (survival_no_events data t H). reflexivity.
Qed.

(** C6, as stated, fails: for a subgroup without any event the script
    prints a number for the median ([inf]) and for the checkpoint (100.0%),
    and what it prints is, line for line, what it prints for a subgroup that
    does have an event.  Nothing in the output says that an estimate is
    undefined. *)
Lemma zero_event_report_counterexample :
  has_event all_censored = false /\
  has_event one_late_event = true /\
  report_subgroup "Free users:" all_censored =
    [ (newline ++ "Free users:")%string;
      "  Median survival: inf days"%string;
      "  90-day retention: 100.0%"%string ] /\
  report_subgroup "Free users:" all_censored =
    report_subgroup "Free users:" one_late_event.
Proof. repeat split; reflexivity. Qed.

(** C6, amended: when a subgroup has zero events the script prints the
    estimator's values through the same formatted lines as for any other
    subgroup: the median survival time as [inf] and the 90-day checkpoint as
    100.0%. *)
Theorem zero_event_report (title : string) (data : list observation) :
  has_event data = false ->
  report_subgroup title data =
    [ (newline ++ title)%string;
      "  Median survival: inf days"%string;
      "  90-day retention: 100.0%"%string ].
Proof.
  intro H. unfold report_subgroup, median_line.
  rewrite (median_no_events data H).
  rewrite (retention_line_no_events _ data 90 H).
  reflexivity.
Qed.

Lemma zero_event_report_witness :
  has_event all_censored = false /\
  report_subgroup "Premium users:" all_censored =
    [ (newline ++ "Premium users:")%string;
      "  Median survival: inf days"%string;
      "  90-day retention: 100.0%"%string ].
Proof.
  split; [reflexivity|].
  apply (zero_event_report "Premium users:" all_censored). reflexivity.
Defined.

End ReportClaims.

(** ** Claims about the log-rank test *)

Module LogRankClaims.
Import KaplanMeier LogRank Examples.

Lemma combine_same (xs ys : list Q) (es : list bool) :
  same_numbers xs ys -> same_rows (combine xs es) (combine ys es).
Proof.
  intro H. revert es. induction H as [|x y xs ys Hxy _ IH]; intros es; simpl.
  - constructor.
  - destruct es as [|e es]; constructor; [split; [exact Hxy | reflexivity]|].
    apply IH.
Qed.

Lemma same_rows_app (A A' B B' : list observation) :
  same_rows A A' -> same_rows B B' -> same_rows (A ++ B) (A' ++ B').
Proof. apply Forall2_app. Qed.

Lemma same_rows_filter_events (A B : list observation) :
  same_rows A B ->
  same_rows (filter event_observed A) (filter event_observed B).
Proof.
  induction 1 as [|o o' A B [Hd He] _ IH]; simpl; [constructor|].
  rewrite <- He. destruct (event_observed o) eqn:E; [|exact IH].
  constructor; [split; [exact Hd | congruence] | exact IH].
Qed.

Lemma count_same (p q : observation -> bool) (A B : list observation) :
  Forall2 (fun o o' => p o = q o') A B -> count p A = count q B.
Proof.
  intro H. unfold count. f_equal.
  induction H as [|o o' A B Hpq _ IH]; simpl; [reflexivity|].
  rewrite <- Hpq. destruct (p o); simpl; congruence.
Qed.

Lemma Qeq_bool_same (a b c d : Q) :
  a == b -> c == d -> Qeq_bool a c = Qeq_bool b d.
Proof.
  intros Hab Hcd.
  destruct (Qeq_bool a c) eqn:E1, (Qeq_bool b d) eqn:E2; auto.
  - apply Qeq_bool_iff in E1. rewrite Hab, Hcd in E1.
    apply Qeq_bool_iff in E1. congruence.
  - apply Qeq_bool_iff in E2. rewrite <- Hab, <- Hcd in E2.
    apply Qeq_bool_iff in E2. congruence.
Qed.

Lemma Qle_bool_same (a b c d : Q) :
  a == b -> c == d -> Qle_bool a c = Qle_bool b d.
Proof.
  intros Hab Hcd.
  destruct (Qle_bool a c) eqn:E1, (Qle_bool b d) eqn:E2; auto.
  - apply Qle_bool_iff in E1. rewrite Hab, Hcd in E1.
    apply Qle_bool_iff in E1. congruence.
  - apply Qle_bool_iff in E2. rewrite <- Hab, <- Hcd in E2.
    apply Qle_bool_iff in E2. congruence.
Qed.

Lemma deaths_at_same (A B : list observation) (t u : Q) :
  same_rows A B -> t == u -> deaths_at A t = deaths_at B u.
Proof.
  intros H Htu. apply count_same.
  eapply Forall2_impl; [|exact H]. simpl. intros o o' [Hd He].
  now rewrite He, (Qeq_bool_same _ _ _ _ Hd Htu).
Qed.

Lemma at_risk_at_same (A B : list observation) (t u : Q) :
  same_rows A B -> t == u -> at_risk_at A t = at_risk_at B u.
Proof.
  intros H Htu. apply count_same.
  eapply Forall2_impl; [|exact H]. simpl. intros o o' [Hd _].
  now apply Qle_bool_same.
Qed.

Lemma insert_time_same (t u : Q) (l l' : list Q) :
  t == u -> same_numbers l l' ->
  same_numbers (insert_time t l) (insert_time u l').
Proof.
  intros Htu H. induction H as [|x y l l' Hxy Hl IH]; simpl.
  - repeat constructor. exact Htu.
  - rewrite (Qeq_bool_same t u x y Htu Hxy), (Qle_bool_same t u x y Htu Hxy).
    destruct (Qeq_bool u y); [now constructor|].
    destruct (Qle_bool u y); repeat constructor; auto.
Qed.

Lemma timeline_same (A B : list observation) :
  same_rows A B -> same_numbers (timeline A) (timeline B).
Proof.
  unfold timeline. induction 1 as [|o o' A B [Hd _] _ IH]; simpl.
  - constructor.
  - now apply insert_time_same.
Qed.

Lemma sum_over_same (f g : Q -> Q) (ts us : list Q) :
  (forall t u, t == u -> f t = g u) ->
  same_numbers ts us -> sum_over f ts = sum_over g us.
Proof.
  intros Hfg H. induction H as [|t u ts us Htu _ IH]; simpl.
  - reflexivity.
  - now rewrite IH, (Hfg t u Htu).
Qed.

Lemma statistic_same (A A' B B' : list observation) :
  same_rows A A' -> same_rows B B' -> statistic A B = statistic A' B'.
Proof.
  intros HA HB.
  assert (Hts : same_numbers (event_times A B) (event_times A' B')).
  { apply timeline_same, same_rows_filter_events, same_rows_app; assumption. }
  assert (Hcounts : forall t u, t == u ->
            n1 A t = n1 A' u /\ n2 B t = n2 B' u /\
            d1 A t = d1 A' u /\ d2 B t = d2 B' u).
  { intros t u Htu. unfold n1, n2, d1, d2.
    rewrite (at_risk_at_same A A' t u HA Htu),
            (at_risk_at_same B B' t u HB Htu),
            (deaths_at_same A A' t u HA Htu),
            (deaths_at_same B B' t u HB Htu).
    repeat split. }
  unfold statistic, observed_minus_expected, total_variance.
  rewrite (sum_over_same (fun t => d1 A t - expected1 A B t)
             (fun t => d1 A' t - expected1 A' B' t) _ _) with (2 := Hts).
  rewrite (sum_over_same (variance A B) (variance A' B') _ _) with (2 := Hts).
  - reflexivity.
  - intros t u Htu. destruct (Hcounts t u Htu) as (E1 & E2 & E3 & E4).
    unfold variance. now rewrite E1, E2, E3, E4.
  - intros t u Htu. destruct (Hcounts t u Htu) as (E1 & E2 & E3 & E4).
    unfold expected1. now rewrite E1, E2, E3, E4.
Qed.

(** C8: the log-rank test is deterministic.  Its result is a function of the
    duration and event columns of the two subgroups alone: two runs given
    columns that hold the same numbers and the same event indicators return
    the identical statistic and the identical p-value. *)
Theorem logrank_deterministic (chisq_sf : Q -> Q)
    (durations_A durations_A' durations_B durations_B' : list Q)
    (events_A events_B : list bool) :
  same_numbers durations_A durations_A' ->
  same_numbers durations_B durations_B' ->
  test_statistic (logrank_test chisq_sf durations_A durations_B
                               events_A events_B) =
  test_statistic (logrank_test chisq_sf durations_A' durations_B'
                               events_A events_B) /\
  p_value (logrank_test chisq_sf durations_A durations_B events_A events_B) =
  p_value (logrank_test chisq_sf durations_A' durations_B' events_A events_B).
Proof.
  intros HA HB. unfold logrank_test; simpl.
  rewrite (statistic_same _ (combine durations_A' events_A)
                          _ (combine durations_B' events_B)).
  - split; reflexivity.
  - now apply combine_same.
  - now apply combine_same.
Qed.

Lemma logrank_deterministic_witness :
  same_numbers durations_free durations_free' /\
  same_numbers durations_premium durations_premium' /\
  p_value (logrank_test stand_in_sf durations_free durations_premium
                        events_free events_premium) =
  p_value (logrank_test stand_in_sf durations_free' durations_premium'
                        events_free events_premium).
Proof.
  assert (HA : same_numbers durations_free durations_free')
    by (repeat constructor).
  assert (HB : same_numbers durations_premium durations_premium')
    by (repeat constructor).
  split; [exact HA|]. split; [exact HB|].
  apply (logrank_deterministic stand_in_sf _ _ _ _
           events_free events_premium HA HB).
Defined.

End LogRankClaims.

(** ** The generated table: numbering, dates and counts *)

Module TableFacts.
Import Generator GeneratorFacts KaplanMeier Script Samples.

Lemma number_from_ids (ds : list draw) :
  forall k : nat,
    map user_id (number_from (Z.of_nat k) ds) =
    map Z.of_nat (seq k (List.length ds)).
Proof.
  induction ds as [|d ds IH]; intro k; simpl; [reflexivity|].
  f_equal. rewrite <- (IH (S k)). f_equal. f_equal. lia.
Qed.

Lemma NoDup_map_of_nat (l : list nat) : NoDup l -> NoDup (map Z.of_nat l).
Proof.
  induction 1 as [|a l Ha _ IH]; simpl; constructor; [|exact IH].
  intro Hin. apply in_map_iff in Hin as (b & Hb & Hin).
  apply Nat2Z.inj in Hb. subst b. contradiction.
Qed.

(** X1: the table has one row per draw, the rows carry the identifiers
    1, 2, ..., n in order, and no identifier occurs twice. *)
Theorem user_ids_consecutive (ds : list draw) :
  List.length (generate ds) = List.length ds /\
  map user_id (generate ds) = map Z.of_nat (seq 1 (List.length ds)) /\
  NoDup (map user_id (generate ds)).
Proof.
  assert (Hids : map user_id (generate ds) =
                 map Z.of_nat (seq 1 (List.length ds))).
  { unfold generate. change 1%Z with (Z.of_nat 1). apply number_from_ids. }
  split; [apply length_number_from|]. split; [exact Hids|].
  rewrite Hids. apply NoDup_map_of_nat, seq_NoDup.
Qed.

Lemma time_observed_cases (i : Z) (d : draw) :
  let r := simulate_user i d in
  (churned r = 1%Z /\ time_observed r == time_to_churn r) \/
  (churned r = 0%Z /\ time_observed r = study_end /\
   study_end < time_to_churn r).
Proof.
  simpl. unfold churn_indicator, np_minimum.
  set (t := np_random_exponential _ _).
  destruct (Qle_bool t study_end) eqn:E.
  - left. split; [reflexivity|].
    destruct (Qle_bool study_end t) eqn:E'; [|reflexivity].
    apply Qle_bool_iff in E, E'. now apply Qle_antisym.
  - right. split; [reflexivity|].
    assert (Hlt : study_end < t).
    { apply Qnot_le_lt. intro H. apply Qle_bool_iff in H. congruence. }
    split; [|exact Hlt].
    destruct (Qle_bool study_end t) eqn:E'; [reflexivity|].
    exfalso. apply Qlt_le_weak in Hlt. apply Qle_bool_iff in Hlt. congruence.
Qed.

(** *** The conversion to whole nanoseconds *)

Lemma truncate_nonneg (x : Q) : 0 <= x -> Pandas.truncate x = Qfloor x.
Proof.
  destruct x as [n d]. unfold Pandas.truncate, Qfloor, Qle. simpl.
  intro H. apply Z.quot_div_nonneg; lia.
Qed.

Lemma Qfloor_nonneg (x : Q) : 0 <= x -> (0 <= Qfloor x)%Z.
Proof. intro H. apply (Qfloor_resp_le 0 x H). Qed.

Lemma Qfloor_bounds (x : Q) :
  inject_Z (Qfloor x) <= x /\ x < inject_Z (Qfloor x) + 1.
Proof.
  split; [apply Qfloor_le|].
  pose proof (Qlt_floor x) as H. rewrite inject_Z_plus in H. exact H.
Qed.

Lemma rint_bounds (y : Q) :
  y - (1 # 2) <= inject_Z (Pandas.rint y) /\
  inject_Z (Pandas.rint y) <= y + (1 # 2).
Proof.
  unfold Pandas.rint. destruct (Qfloor_bounds y) as [L U].
  destruct (Qcompare (y - inject_Z (Qfloor y)) (1 # 2)) eqn:C.
  - apply Qeq_alt in C.
    destruct (Z.even (Qfloor y)); rewrite ?inject_Z_plus;
      change (inject_Z 1) with 1; split; lra.
  - apply Qlt_alt in C. split; lra.
  - apply Qgt_alt in C. rewrite inject_Z_plus.
    change (inject_Z 1) with 1. split; lra.
Qed.

Lemma inject_Z_le_int (a b : Z) (e : Q) :
  inject_Z a <= inject_Z b + e -> e < 1 -> (a <= b)%Z.
Proof.
  intros H He.
  assert (Hlt : inject_Z a < inject_Z (b + 1)).
  { rewrite inject_Z_plus. change (inject_Z 1) with 1. lra. }
  rewrite <- Zlt_Qlt in Hlt. lia.
Qed.

(** The fraction of a day, rounded to 13 decimals, stays a fraction and moves
    by at most half a unit of the last decimal. *)
Lemma np_round_fraction (f : Q) :
  0 <= f -> f <= 1 ->
  0 <= Pandas.np_round f 13 /\ Pandas.np_round f 13 <= 1 /\
  f - (1 # 20000000000000) <= Pandas.np_round f 13 /\
  Pandas.np_round f 13 <= f + (1 # 20000000000000).
Proof.
  intros H0 H1. unfold Pandas.np_round.
  change (inject_Z (10 ^ Z.of_nat 13)) with (10000000000000 # 1).
  destruct (rint_bounds (f * (10000000000000 # 1))) as [L U].
  set (r := inject_Z (Pandas.rint (f * (10000000000000 # 1)))) in *.
  assert (E : r / (10000000000000 # 1) == r * (1 # 10000000000000))
    by (field; discriminate).
  rewrite E.
  assert (R0 : 0 <= r).
  { change 0 with (inject_Z 0). unfold r. rewrite <- Zle_Qle.
    apply (inject_Z_le_int _ _ (1 # 2)); [|reflexivity].
    change (inject_Z 0) with 0. fold r. lra. }
  assert (R1 : r <= 10000000000000 # 1).
  { change (10000000000000 # 1) with (inject_Z 10000000000000).
    unfold r. rewrite <- Zle_Qle.
    apply (inject_Z_le_int _ _ (1 # 2)); [|reflexivity].
    fold r. change (inject_Z 10000000000000) with (10000000000000 # 1). lra. }
  repeat split; lra.
Qed.

(** The conversion on a non-negative number of days [x]: between the whole
    days below and above [x], and less than 6 nanoseconds away from the exact
    number of nanoseconds. *)
Lemma to_timedelta_days_bounds (x : Q) :
  0 <= x ->
  (Qfloor x * Pandas.ns_per_day <= Pandas.to_timedelta_days x)%Z /\
  (Pandas.to_timedelta_days x <= (Qfloor x + 1) * Pandas.ns_per_day)%Z /\
  x * inject_Z Pandas.ns_per_day - 6 < inject_Z (Pandas.to_timedelta_days x) /\
  inject_Z (Pandas.to_timedelta_days x) <= x * inject_Z Pandas.ns_per_day + 5.
Proof.
  intro Hx. unfold Pandas.to_timedelta_days.
  rewrite (truncate_nonneg x Hx).
  destruct (Qfloor_bounds x) as [L U].
  set (f := x - inject_Z (Qfloor x)) in *.
  assert (F0 : 0 <= f) by (unfold f; lra).
  assert (F1 : f <= 1) by (unfold f; lra).
  destruct (np_round_fraction f F0 F1) as (N0 & N1 & NL & NU).
  set (g := Pandas.np_round f 13) in *.
  change (inject_Z Pandas.ns_per_day) with (86400000000000 # 1).
  assert (G0 : 0 <= g * (86400000000000 # 1)) by nra.
  rewrite (truncate_nonneg _ G0).
  destruct (Qfloor_bounds (g * (86400000000000 # 1))) as [TL TU].
  pose proof (Qfloor_nonneg _ G0) as T0.
  set (t := Qfloor (g * (86400000000000 # 1))) in *.
  assert (T1 : (t <= Pandas.ns_per_day)%Z).
  { apply (inject_Z_le_int _ _ 0); [|reflexivity].
    change (inject_Z Pandas.ns_per_day) with (86400000000000 # 1). nra. }
  split; [lia|]. split; [lia|].
  rewrite inject_Z_plus, inject_Z_mult.
  change (inject_Z Pandas.ns_per_day) with (86400000000000 # 1).
  assert (X : x == inject_Z (Qfloor x) + f) by (unfold f; ring).
  split.
  - rewrite X at 1. nra.
  - rewrite X at 2. nra.
Qed.

Lemma rint_zero (y : Q) : y == 0 -> Pandas.rint y = 0%Z.
Proof.
  intro Y. destruct (rint_bounds y) as [L U].
  assert (Pandas.rint y <= 0)%Z.
  { apply (inject_Z_le_int _ _ (1 # 2)); [|reflexivity].
    change (inject_Z 0) with 0. lra. }
  assert (0 <= Pandas.rint y)%Z.
  { apply (inject_Z_le_int _ _ (1 # 2)); [|reflexivity].
    change (inject_Z 0) with 0. lra. }
  lia.
Qed.

(** A whole number of days converts exactly. *)
Lemma to_timedelta_days_integral (x : Q) :
  0 <= x -> x == inject_Z (Qfloor x) ->
  Pandas.to_timedelta_days x = (Qfloor x * Pandas.ns_per_day)%Z.
Proof.
  intros H0 Hint. unfold Pandas.to_timedelta_days.
  rewrite (truncate_nonneg x H0).
  assert (E : Pandas.np_round (x - inject_Z (Qfloor x)) 13
              * inject_Z Pandas.ns_per_day == 0).
  { unfold Pandas.np_round. rewrite rint_zero; [reflexivity|].
    rewrite Hint at 1. ring. }
  assert (G0 : 0 <= Pandas.np_round (x - inject_Z (Qfloor x)) 13
                    * inject_Z Pandas.ns_per_day) by (rewrite E; discriminate).
  rewrite (truncate_nonneg _ G0), (Qfloor_comp _ 0 E).
  change (Qfloor 0) with 0%Z. lia.
Qed.

Lemma to_timedelta_days_le (x : Q) (n : Z) :
  0 <= x -> x <= inject_Z n ->
  (Pandas.to_timedelta_days x <= n * Pandas.ns_per_day)%Z.
Proof.
  intros H0 Hn.
  destruct (to_timedelta_days_bounds x H0) as (_ & U & _ & _).
  destruct (Qfloor_bounds x) as [L _].
  assert (Hf : (Qfloor x <= n)%Z).
  { apply (inject_Z_le_int _ _ 0); [lra | reflexivity]. }
  destruct (Z.eq_dec (Qfloor x) n) as [E | N].
  - rewrite to_timedelta_days_integral; [rewrite E; lia | exact H0 |].
    rewrite E in *. lra.
  - unfold Pandas.ns_per_day in *. nia.
Qed.

(** X2: when the sampler's unit variates are non-negative, every user's last
    active date, a timestamp in whole nanoseconds, lies between the signup
    date and 120 days after it and is exactly 120 days after signup for a
    user who did not churn; the time elapsed since signup is less than 6
    nanoseconds away from the observed duration.  With signup offsets drawn
    from 0..30 the date is at most day 150. *)
Theorem last_active_bounds (ds : list draw) (r : user) :
  Forall (fun d => 0 <= std_exponential d) ds ->
  In r (generate ds) ->
  (signup_date r * Pandas.ns_per_day <= last_active_date r)%Z /\
  (last_active_date r <= (signup_date r + 120) * Pandas.ns_per_day)%Z /\
  (churned r = 0%Z ->
   last_active_date r = ((signup_date r + 120) * Pandas.ns_per_day)%Z) /\
  time_observed r * inject_Z Pandas.ns_per_day - 6
    < inject_Z (last_active_date r - signup_date r * Pandas.ns_per_day) /\
  inject_Z (last_active_date r - signup_date r * Pandas.ns_per_day)
    <= time_observed r * inject_Z Pandas.ns_per_day + 5 /\
  ((0 <= signup_date r < 31)%Z ->
   (0 <= last_active_date r <= 150 * Pandas.ns_per_day)%Z).
Proof.
  intros Hds Hr. apply generate_inv in Hr as (i & d & Hd & ->).
  rewrite Forall_forall in Hds. specialize (Hds d Hd).
  pose proof (hazard_of_pos (drawn_tier d) (drawn_interviews d)) as Hh.
  assert (Ht : 0 <= time_to_churn (simulate_user i d)).
  { simpl. unfold np_random_exponential, exponential_scale.
    apply Qmult_le_0_compat; [|exact Hds].
    apply Qlt_le_weak. unfold Qdiv. rewrite Qmult_1_l.
    now apply Qinv_lt_0_compat. }
  pose proof (time_observed_cases i d) as Hcases. cbv zeta in Hcases.
  set (r := simulate_user i d) in *.
  assert (Hobs : 0 <= time_observed r /\ time_observed r <= inject_Z 120).
  { destruct Hcases as [[Hc He] | [Hc [He Hlt]]].
    - split; [rewrite He; exact Ht|].
      rewrite He. now apply churn_indicator_spec.
    - rewrite He. split; discriminate. }
  destruct Hobs as [Hlo Hhi].
  assert (Hlast : last_active_date r
                  = (signup_date r * Pandas.ns_per_day
                     + Pandas.to_timedelta_days (time_observed r))%Z)
    by reflexivity.
  destruct (to_timedelta_days_bounds _ Hlo) as (B0 & _ & BL & BU).
  pose proof (to_timedelta_days_le _ 120 Hlo Hhi) as B120.
  pose proof (Qfloor_nonneg _ Hlo) as F0.
  assert (T0 : (0 <= Pandas.to_timedelta_days (time_observed r))%Z).
  { unfold Pandas.ns_per_day in *. nia. }
  assert (Hdiff : (last_active_date r - signup_date r * Pandas.ns_per_day
                   = Pandas.to_timedelta_days (time_observed r))%Z)
    by (rewrite Hlast; ring).
  rewrite Hdiff. rewrite Hlast.
  split; [lia|]. split; [lia|]. split; [|split; [exact BL|split; [exact BU|]]].
  - intro Hc. destruct Hcases as [[Hc' _] | [_ [He _]]]; [congruence|].
    rewrite He. change (Pandas.to_timedelta_days study_end)
      with (Pandas.to_timedelta_days (inject_Z 120)).
    rewrite to_timedelta_days_integral by (reflexivity || discriminate).
    rewrite Qfloor_Z. ring.
  - intros [H0 H31]. unfold Pandas.ns_per_day in *. nia.
Qed.

Lemma last_active_bounds_witness :
  Forall (fun d => 0 <= std_exponential d) four_draws /\
  (last_active_date (simulate_user 1 d_free_early)
   <= 150 * Pandas.ns_per_day)%Z.
Proof.
  assert (H : Forall (fun d => 0 <= std_exponential d) four_draws)
    by (repeat constructor; discriminate).
  split; [exact H|].
  apply (last_active_bounds four_draws (simulate_user 1 d_free_early) H).
  - left. reflexivity.
  - simpl. lia.
Defined.

End TableFacts.

(** ** Counts and subgroups *)

Module SubgroupFacts.
Import Generator GeneratorFacts KaplanMeier Script Samples.

Lemma churned_bit (ds : list draw) (r : user) :
  In r (generate ds) -> churned r = 0%Z \/ churned r = 1%Z.
Proof.
  intro Hr. apply generate_inv in Hr as (i & d & _ & ->).
  apply churn_indicator_bit.
Qed.

Lemma column_sum_complement (us : list user) :
  (column_sum churned us + column_sum (fun u => 1 - churned u) us
   = Z.of_nat (List.length us))%Z.
Proof.
  induction us as [|u us IH]; [reflexivity|].
  unfold column_sum in *. cbn [fold_right List.length]. lia.
Qed.

Lemma observations_cons (u : user) (us : list user) :
  observations (u :: us)
  = (time_observed u, negb (churned u =? 0)%Z) :: observations us.
Proof. reflexivity. Qed.

Lemma count_cons (p : observation -> bool) (o : observation)
    (data : list observation) :
  count p (o :: data) = ((if p o then 1 else 0) + count p data)%Z.
Proof. unfold count. simpl. destruct (p o); simpl List.length; lia. Qed.

Lemma column_sum_events (us : list user) :
  (forall u, In u us -> churned u = 0%Z \/ churned u = 1%Z) ->
  column_sum churned us = count event_observed (observations us).
Proof.
  induction us as [|u us IH]; intro Hbit; [reflexivity|].
  specialize (IH (fun v Hv => Hbit v (or_intror Hv))).
  change (observations (u :: us))
    with ((time_observed u, negb (churned u =? 0)%Z) :: observations us).
  rewrite count_cons, <- IH.
  change (column_sum churned (u :: us))
    with (churned u + column_sum churned us)%Z.
  unfold event_observed. cbn [snd].
  destruct (Hbit u (or_introl eq_refl)) as [-> | ->]; reflexivity.
Qed.

Lemma count_bounds (p : observation -> bool) (data : list observation) :
  (0 <= count p data <= Z.of_nat (List.length data))%Z.
Proof.
  unfold count. split; [lia|].
  pose proof (filter_length p data). lia.
Qed.

(** X3: after generation the churned and the active users add up to the
    number of users, the churned count lies between 0 and that number and is
    the number of events later handed to the Kaplan-Meier fitter, and for a
    non-empty table the two printed percentages add up to 100. *)
Theorem churn_counts (ds : list draw) :
  ds <> [] ->
  (churned_users (generate ds) + active_users (generate ds)
   = Z.of_nat (List.length ds))%Z /\
  (0 <= churned_users (generate ds) <= Z.of_nat (List.length ds))%Z /\
  churned_users (generate ds)
  = count event_observed (observations (generate ds)) /\
  churned_pct (generate ds) + active_pct (generate ds) == 100.
Proof.
  intro Hne.
  assert (Hlen : List.length (generate ds) = List.length ds)
    by apply length_number_from.
  assert (Hsum := column_sum_complement (generate ds)).
  assert (Hev := column_sum_events (generate ds) (churned_bit ds)).
  rewrite Hlen in Hsum.
  unfold churned_users, active_users, churned_pct, active_pct, column_mean.
  split; [exact Hsum|]. split; [|split; [exact Hev|]].
  - rewrite Hev.
    pose proof (count_bounds event_observed (observations (generate ds))) as B.
    unfold observations in B. rewrite length_map, Hlen in B. exact B.
  - rewrite Hlen.
    assert (Hn : ~ inject_Z (Z.of_nat (List.length ds)) == 0).
    { destruct ds; [congruence|]. simpl List.length. unfold Qeq; simpl. lia. }
    assert (E : inject_Z (column_sum (fun u => (1 - churned u)%Z) (generate ds))
                == inject_Z (Z.of_nat (List.length ds))
                   - inject_Z (column_sum churned (generate ds))).
    { rewrite <- Hsum. rewrite inject_Z_plus. ring. }
    rewrite E. field. exact Hn.
Qed.

Lemma churn_counts_witness :
  four_draws <> [] /\
  churned_pct (generate four_draws) + active_pct (generate four_draws) == 100.
Proof.
  assert (H : four_draws <> []) by discriminate.
  split; [exact H|]. apply (churn_counts four_draws H).
Defined.

Lemma combine_columns (us : list user) :
  combine (durations us) (events us) = observations us.
Proof.
  unfold durations, events, observations.
  induction us as [|u us IH]; simpl; [reflexivity | now rewrite IH].
Qed.

Lemma filter_split_length {X : Type} (p q : X -> bool) (l : list X) :
  (forall x, q x = negb (p x)) ->
  (List.length (filter p l) + List.length (filter q l) = List.length l)%nat.
Proof.
  intro Hq. induction l as [|x l IH]; simpl; [reflexivity|].
  rewrite (Hq x). destruct (p x); simpl; lia.
Qed.

Lemma count_split (c : observation -> bool) (p q : user -> bool)
    (us : list user) :
  (forall u, q u = negb (p u)) ->
  (count c (observations us)
   = count c (observations (filter p us))
     + count c (observations (filter q us)))%Z.
Proof.
  intro Hq. induction us as [|u us IH]; [reflexivity|].
  cbn [filter]. rewrite (Hq u).
  destruct (p u); cbn [negb];
    rewrite ?observations_cons, ?count_cons, IH;
    destruct (c _); lia.
Qed.

Lemma tier_complement (u : user) :
  tier_eqb (tier u) premium = negb (tier_eqb (tier u) free).
Proof. destruct (tier u); reflexivity. Qed.

(** X4: the free and the premium subgroup split the table: every user is in
    exactly one of them and their sizes add up.  The rows the log-rank test
    receives for a subgroup are the rows its Kaplan-Meier fit receives, and at
    every time the numbers at risk and the numbers of events of the two
    subgroups add up to those of the whole table. *)
Theorem tier_subgroups_partition (us : list user) :
  (forall u, In u us <-> In u (free_users us) \/ In u (premium_users us)) /\
  (forall u, ~ (In u (free_users us) /\ In u (premium_users us))) /\
  (List.length (free_users us) + List.length (premium_users us)
   = List.length us)%nat /\
  combine (durations (free_users us)) (events (free_users us))
  = observations (free_users us) /\
  combine (durations (premium_users us)) (events (premium_users us))
  = observations (premium_users us) /\
  (forall t,
     at_risk_at (observations us) t
     = at_risk_at (observations (free_users us)) t
       + at_risk_at (observations (premium_users us)) t)%Z /\
  (forall t,
     deaths_at (observations us) t
     = deaths_at (observations (free_users us)) t
       + deaths_at (observations (premium_users us)) t)%Z.
Proof.
  unfold free_users, premium_users.
  split; [|split; [|split; [|split; [|split; [|split]]]]].
  - intro u. rewrite !filter_In. split.
    + intro Hu. destruct (tier u); [left | right]; now split.
    + intros [[Hu _] | [Hu _]]; exact Hu.
  - intros u [Hf Hp]. apply filter_In in Hf as [_ Hf].
    apply filter_In in Hp as [_ Hp]. destruct (tier u); discriminate.
  - apply filter_split_length, tier_complement.
  - apply combine_columns.
  - apply combine_columns.
  - intro t. apply count_split, tier_complement.
  - intro t. apply count_split, tier_complement.
Qed.

Lemma activity_level_high (x : Z) :
  String.eqb (activity_level x) "High (5+ interviews)" = (5 <=? x)%Z.
Proof. unfold activity_level. destruct (5 <=? x)%Z; reflexivity. Qed.

Lemma activity_level_low (x : Z) :
  String.eqb (activity_level x) "Low (<5 interviews)" = negb (5 <=? x)%Z.
Proof. unfold activity_level. destruct (5 <=? x)%Z; reflexivity. Qed.

(** X5: the activity buckets split the table at five interviews, the very
    threshold of the hazard adjustment: a user is in the high-activity group
    exactly when the 0.32 factor was applied to the hazard, and in the
    low-activity group exactly when it was not; the sizes of the two groups
    add up to the size of the table. *)
Theorem activity_buckets (ds : list draw) (r : user) :
  In r (generate ds) ->
  (In r (high_activity (generate ds)) <-> (5 <= num_interviews r)%Z) /\
  (In r (low_activity (generate ds)) <-> (num_interviews r < 5)%Z) /\
  (In r (high_activity (generate ds)) ->
   baseline_hazard r = adjust_subscription (tier r) 0.015 * 0.32) /\
  (In r (low_activity (generate ds)) ->
   baseline_hazard r = adjust_subscription (tier r) 0.015) /\
  (List.length (low_activity (generate ds))
   + List.length (high_activity (generate ds))
   = List.length ds)%nat.
Proof.
  intro Hr. unfold high_activity, low_activity.
  rewrite !filter_In, activity_level_high, activity_level_low.
  assert (Hhaz : baseline_hazard r
                 = adjust_activity (num_interviews r)
                     (adjust_subscription (tier r) 0.015)).
  { apply generate_inv in Hr as (i & d & _ & ->). reflexivity. }
  unfold adjust_activity in Hhaz.
  split; [|split; [|split; [|split]]].
  - rewrite Z.leb_le. tauto.
  - rewrite negb_true_iff, Z.leb_gt. tauto.
  - intros [_ H]. now rewrite H in Hhaz.
  - intros [_ H]. apply negb_true_iff in H. now rewrite H in Hhaz.
  - rewrite <- (length_number_from ds 1). fold (generate ds).
    apply filter_split_length. intro u.
    rewrite activity_level_high, activity_level_low.
    now rewrite negb_involutive.
Qed.

Lemma activity_buckets_witness :
  In (simulate_user 2 Examples.d_premium_active) (generate four_draws) /\
  In (simulate_user 2 Examples.d_premium_active)
     (high_activity (generate four_draws)).
Proof.
  assert (H : In (simulate_user 2 Examples.d_premium_active)
                 (generate four_draws)) by (right; left; reflexivity).
  split; [exact H|].
  apply (activity_buckets four_draws _ H). simpl. lia.
Defined.

End SubgroupFacts.

(** ** The design matrix of the regression *)

Module EncodingFacts.
Import Generator Script Samples.

Lemma existsb_tier (t : subscription_tier) (col : list subscription_tier) :
  existsb (tier_eqb t) col = true <-> In t col.
Proof.
  rewrite existsb_exists. split.
  - intros (x & Hx & E). destruct t, x; simpl in E; congruence.
  - intro H. exists t. split; [exact H | destruct t; reflexivity].
Qed.

Lemma existsb_user_type (t : user_type) (col : list user_type) :
  existsb (user_type_eqb t) col = true <-> In t col.
Proof.
  rewrite existsb_exists. split.
  - intros (x & Hx & E). destruct t, x; simpl in E; congruence.
  - intro H. exists t. split; [exact H | destruct t; reflexivity].
Qed.

Lemma tier_column (t : subscription_tier) (us : list user) :
  In t (map tier us) <-> exists u, In u us /\ tier u = t.
Proof.
  rewrite in_map_iff. split; intros (u & H1 & H2); exists u; tauto.
Qed.

(** X6: the indicator encoding of a row loses nothing.  Every indicator is 0
    or 1, the two user-type indicators are never both 1, and two users whose
    three indicators agree have the same subscription tier and the same user
    type. *)
Theorem dummies_injective (u v : user) :
  (forall c, In c [Cox.subscription_tier_premium; Cox.user_type_job_seeker;
                   Cox.user_type_recruiter] ->
             Cox.cox_data u c = 0 \/ Cox.cox_data u c = 1) /\
  Cox.cox_data u Cox.user_type_job_seeker
    + Cox.cox_data u Cox.user_type_recruiter <= 1 /\
  (Cox.cox_data u Cox.subscription_tier_premium
     == Cox.cox_data v Cox.subscription_tier_premium ->
   Cox.cox_data u Cox.user_type_job_seeker
     == Cox.cox_data v Cox.user_type_job_seeker ->
   Cox.cox_data u Cox.user_type_recruiter
     == Cox.cox_data v Cox.user_type_recruiter ->
   tier u = tier v /\ utype u = utype v).
Proof.
  split; [|split].
  - intros c [<- | [<- | [<- | []]]]; simpl;
      [destruct (tier u) | destruct (utype u) | destruct (utype u)];
      simpl; auto.
  - simpl. destruct (utype u); discriminate.
  - simpl. intros Ht Hj Hr. split.
    + destruct (tier u), (tier v); simpl in Ht;
        reflexivity || discriminate Ht.
    + destruct (utype u), (utype v); simpl in Hj, Hr;
        reflexivity || discriminate Hj || discriminate Hr.
Qed.

(** X7: when both subscription tiers and all three user types occur in the
    table, the covariate columns of the regression are exactly the five the
    script reads coefficients and intervals for, in the order number of
    interviews, score, premium indicator, job-seeker indicator, recruiter
    indicator; the reference levels free and interviewer get no column. *)
Theorem cox_columns_all_levels (us : list user) :
  (forall t, exists u, In u us /\ tier u = t) ->
  (forall t, exists u, In u us /\ utype u = t) ->
  cox_columns us = map covariate_name Cox.covariates.
Proof.
  intros Ht Hu. unfold cox_columns, dummy_columns, present.
  unfold tier_levels, user_type_levels. cbn [filter].
  assert (T : forall t, existsb (tier_eqb t) (map tier us) = true).
  { intro t. apply existsb_tier, tier_column, Ht. }
  assert (U : forall t, existsb (user_type_eqb t) (map utype us) = true).
  { intro t. apply existsb_user_type, in_map_iff.
    destruct (Hu t) as (u & H1 & H2). now exists u. }
  rewrite !T, !U. reflexivity.
Qed.

Lemma cox_columns_all_levels_witness :
  cox_columns (generate four_draws) = map covariate_name Cox.covariates.
Proof.
  apply (cox_columns_all_levels (generate four_draws)).
  - intros [|].
    + exists (simulate_user 1 d_free_early). split; [left|]; reflexivity.
    + exists (simulate_user 2 Examples.d_premium_active).
      split; [right; left|]; reflexivity.
  - intros [| |].
    + exists (simulate_user 1 d_free_early). split; [left|]; reflexivity.
    + exists (simulate_user 4 d_premium_idle).
      split; [right; right; right; left|]; reflexivity.
    + exists (simulate_user 3 Examples.d_free_idle).
      split; [right; right; left|]; reflexivity.
Defined.

Lemma no_premium_among_user_types (ls : list user_type) :
  index_of "subscription_tier_premium"
    (map (fun l => ("user_type_" ++ user_type_name l)%string) ls) = None.
Proof.
  induction ls as [|l ls IH]; [reflexivity|].
  cbn [map index_of]. rewrite IH. destruct l; reflexivity.
Qed.

Lemma index_of_fixed (rest : list string) :
  index_of "subscription_tier_premium"
    ("num_interviews"%string :: "avg_score"%string :: rest)
  = option_map S (option_map S
      (index_of "subscription_tier_premium" rest)).
Proof. reflexivity. Qed.

(** X8: the coefficient named subscription_tier_premium, which the script
    reads after the fit, exists exactly when the table holds at least one
    free and at least one premium user; with a single tier the encoding drops
    the only level and the lookup has no such key.  The columns
    num_interviews and avg_score always exist. *)
Theorem premium_coefficient_key (us : list user) :
  (params_key us Cox.subscription_tier_premium <> None <->
   (exists u, In u us /\ tier u = free) /\
   (exists v, In v us /\ tier v = premium)) /\
  params_key us Cox.num_interviews = Some 0%nat /\
  params_key us Cox.avg_score = Some 1%nat.
Proof.
  split; [|split; reflexivity].
  rewrite <- !tier_column, <- !existsb_tier.
  unfold params_key, cox_columns, dummy_columns, present, tier_levels.
  cbn [filter covariate_name].
  destruct (existsb (tier_eqb free) (map tier us)),
           (existsb (tier_eqb premium) (map tier us));
    cbn [tl map app].
  - rewrite index_of_fixed. cbn [index_of String.eqb option_map].
    split; [auto | discriminate].
  - rewrite index_of_fixed, no_premium_among_user_types. cbn [option_map].
    split; [congruence | intros [_ H]; discriminate].
  - rewrite index_of_fixed, no_premium_among_user_types. cbn [option_map].
    split; [congruence | intros [H _]; discriminate].
  - rewrite index_of_fixed, no_premium_among_user_types. cbn [option_map].
    split; [congruence | intros [H _]; discriminate].
Qed.

End EncodingFacts.

(** ** Reading the hazard ratios *)

Module HazardRatioFacts.
Import Cox Script Samples.

Local Open Scope R_scope.

Lemma exp_lt_1 (x : R) : exp x < 1 <-> x < 0.
Proof.
  rewrite <- exp_0. split.
  - apply exp_lt_inv.
  - apply exp_increasing.
Qed.

Lemma exp_gt_1 (x : R) : 1 < exp x <-> 0 < x.
Proof.
  rewrite <- exp_0. split.
  - apply exp_lt_inv.
  - apply exp_increasing.
Qed.

Lemma exp_le (x y : R) : x <= y -> exp x <= exp y.
Proof.
  intros [H | ->]; [left; now apply exp_increasing | right; reflexivity].
Qed.

Lemma reading_of (cph : CoxPHFitter) (c : covariate) :
  finding_reading cph
    {| about := c;
       lower_risk_pct := (1 - exp (params_ cph c)) * 100;
       HR := exp (params_ cph c);
       ci_low := exp (lower_bound cph c);
       ci_high := exp (upper_bound cph c) |}.
Proof.
  unfold finding_reading. cbn [lower_risk_pct HR ci_low ci_high about].
  pose proof (exp_pos (params_ cph c)) as Hpos.
  pose proof (exp_lt_1 (params_ cph c)) as [L1 _].
  pose proof (exp_gt_1 (params_ cph c)) as [G1 _].
  split; [Lra.lra|].
  split; [intro H; apply exp_le in H; rewrite exp_0 in H; Lra.lra|].
  split; [intro H; apply exp_le in H; rewrite exp_0 in H; Lra.lra|].
  split; [intro H; apply L1; Lra.lra|].
  split; [intro H; apply G1; Lra.lra|].
  split; [intro H; Lra.lra|].
  split; [intro H; Lra.lra|].
  split; [apply exp_le|].
  split; [apply exp_le|].
  intro H. apply exp_le in H. rewrite exp_0 in H. exact H.
Qed.

(** X9: for both key findings, on the values the script computes before it
    rounds them for printing: the percentage of lower churn risk is at most
    100, is non-negative for a coefficient that is not positive and
    non-positive for one that is not negative, and exceeds 50 only when the
    hazard ratio is below one half; whenever the coefficient lies inside its
    confidence interval the hazard ratio lies inside the interval of the
    exponentiated ends, and an interval that ends at or below zero is
    reported as one that ends at or below 1. *)
Theorem hazard_ratio_reading (cph : CoxPHFitter) :
  Forall (finding_reading cph) (key_findings cph) /\
  map about (key_findings cph) = [subscription_tier_premium; num_interviews].
Proof.
  split; [|reflexivity].
  unfold key_findings, hr_premium, hr_interviews, np_exp.
  constructor; [apply reading_of|].
  constructor; [apply reading_of | constructor].
Qed.

End HazardRatioFacts.

(** ** Verdicts and printed rates *)

Module VerdictFacts.
Import KaplanMeier KaplanMeierFacts LogRank Report Script Samples.

Lemma verdict_cases (p : Q) :
  (0.05 <= p /\ verdict p = "NOT SIGNIFICANT"%string) \/
  (p < 0.05 /\ verdict p = "SIGNIFICANT"%string).
Proof.
  unfold verdict. destruct (Qle_bool 0.05 p) eqn:E.
  - left. split; [now apply Qle_bool_iff | reflexivity].
  - right. split; [|reflexivity].
    apply Qnot_le_lt. intro H. apply Qle_bool_iff in H. congruence.
Qed.

(** *** Texts occurring in a printed line *)

Lemma has_char_app (c : ascii) (a b : string) :
  has_char c (a ++ b) = has_char c a || has_char c b.
Proof.
  induction a as [|x a IH]; simpl; [reflexivity|].
  now rewrite IH, orb_assoc.
Qed.

Lemma prefix_has_char (c : ascii) (n : string) :
  forall h, String.prefix n h = true ->
            has_char c n = true -> has_char c h = true.
Proof.
  induction n as [|x n IH]; intros h Hp Hc; simpl in Hc; [discriminate|].
  destruct h as [|y h]; simpl in Hp; [discriminate|].
  destruct (ascii_dec x y) as [<- | _]; [|discriminate].
  simpl. apply orb_true_iff in Hc as [Hc | Hc].
  - rewrite Hc. reflexivity.
  - rewrite (IH h Hp Hc). apply orb_true_r.
Qed.

(** A text occurs in a line only if each of its characters does. *)
Lemma contains_has_char (c : ascii) (n h : string) :
  contains n h = true -> has_char c n = true -> has_char c h = true.
Proof.
  intros Hc Hn. induction h as [|y h IH].
  - destruct n; [discriminate Hn | discriminate Hc].
  - cbn [contains] in Hc. apply orb_true_iff in Hc as [Hc | Hc].
    + apply (prefix_has_char c n _ Hc Hn).
    + simpl. rewrite (IH Hc). apply orb_true_r.
Qed.

Lemma contains_app_r (n a b : string) :
  contains n b = true -> contains n (a ++ b) = true.
Proof.
  intro H. induction a as [|x a IH]; [exact H|].
  cbn [append contains]. rewrite IH. apply orb_true_r.
Qed.

Lemma no_O_in_uint (d : Decimal.uint) :
  has_char "O" (NilEmpty.string_of_uint d) = false.
Proof. induction d; simpl; auto. Qed.

Lemma no_O_in_digits (n : Z) : has_char "O" (digits n) = false.
Proof.
  unfold digits, NilZero.string_of_uint.
  destruct (N.to_uint (Z.to_N n)) eqn:E; try reflexivity;
    rewrite <- E; clear E;
    destruct (N.to_uint (Z.to_N n)); simpl; auto using no_O_in_uint.
Qed.

Lemma no_O_in_zeros (k : nat) : has_char "O" (zeros k) = false.
Proof. induction k; simpl; auto. Qed.

(** A formatted number is made of digits, a point and possibly a sign. *)
Lemma no_O_in_format_f (k : nat) (q : Q) : has_char "O" (format_f k q) = false.
Proof.
  unfold format_f, pad_left.
  rewrite !has_char_app, !no_O_in_digits, no_O_in_zeros.
  destruct (Qcompare q 0); reflexivity.
Qed.

(** X10: when the p-value of a log-rank test is at least 0.05, the console
    line of the test reads NOT SIGNIFICANT, while the line of the written
    summary for the same test reads HIGHLY SIGNIFICANT and nowhere says NOT
    SIGNIFICANT: the two lines disagree. *)
Theorem verdict_and_summary (r : StatisticalResult) :
  0.05 <= p_value r ->
  contains "NOT SIGNIFICANT" (result_line r) = true /\
  contains "NOT SIGNIFICANT" (summary_logrank_line r) = false /\
  contains "HIGHLY SIGNIFICANT" (summary_logrank_line r) = true.
Proof.
  intro Hp. split; [|split].
  - unfold result_line, verdict.
    apply Qle_bool_iff in Hp. rewrite Hp. reflexivity.
  - destruct (contains "NOT SIGNIFICANT" (summary_logrank_line r)) eqn:C;
      [|reflexivity].
    apply (contains_has_char "O") in C; [|reflexivity].
    unfold summary_logrank_line in C.
    rewrite !has_char_app, no_O_in_format_f in C. discriminate C.
  - unfold summary_logrank_line.
    apply contains_app_r, contains_app_r. reflexivity.
Qed.

Lemma verdict_and_summary_witness :
  0.05 <= p_value (mkResult 2 (1 # 2)) /\
  contains "NOT SIGNIFICANT" (summary_logrank_line (mkResult 2 (1 # 2)))
  = false.
Proof.
  assert (H : 0.05 <= p_value (mkResult 2 (1 # 2))) by discriminate.
  split; [exact H|].
  apply (verdict_and_summary (mkResult 2 (1 # 2)) H).
Defined.

Lemma round_half_even_range (x : Q) :
  (Qfloor x <= round_half_even x <= Qfloor x + 1)%Z.
Proof.
  unfold round_half_even.
  destruct (Qcompare _ _); [destruct (Z.even _)| |]; lia.
Qed.

Lemma round_half_even_mono (x y : Q) :
  x <= y -> (round_half_even x <= round_half_even y)%Z.
Proof.
  intro Hxy. pose proof (Qfloor_resp_le x y Hxy) as Hf.
  destruct (Z.eq_dec (Qfloor x) (Qfloor y)) as [E | N].
  - unfold round_half_even. rewrite <- E.
    destruct (Qcompare (x - inject_Z (Qfloor x)) (1 # 2)) eqn:Cx;
    destruct (Qcompare (y - inject_Z (Qfloor x)) (1 # 2)) eqn:Cy;
      try (destruct (Z.even (Qfloor x)); lia); try lia; exfalso;
      repeat match goal with
      | H : Qcompare _ _ = Eq |- _ => apply Qeq_alt in H
      | H : Qcompare _ _ = Lt |- _ => apply Qlt_alt in H
      | H : Qcompare _ _ = Gt |- _ => apply Qgt_alt in H
      end; lra.
  - pose proof (round_half_even_range x). pose proof (round_half_even_range y).
    lia.
Qed.

Lemma round_half_even_Z (n : Z) : round_half_even (inject_Z n) = n.
Proof.
  unfold round_half_even. rewrite Qfloor_Z.
  assert (E : inject_Z n - inject_Z n == 0) by ring.
  rewrite (Qcompare_comp _ _ E (1 # 2) (1 # 2) (Qeq_refl _)). reflexivity.
Qed.

Lemma survival_unit (data : list observation) (t : Q) :
  0 <= survival_function_at_times (fit data) t /\
  survival_function_at_times (fit data) t <= 1.
Proof.
  unfold survival_function_at_times, fit; simpl.
  apply step_cumprod_bounds; [apply event_table_ok | discriminate].
Qed.

(** X11: the retention rates the report prints never increase with the
    checkpoint and lie between 0.0% and 100.0%.  The rate printed for a time
    is the estimate rounded to tenths of a percent; written with its integer
    part and one decimal it is the line the script prints. *)
Theorem printed_retention_monotone (data : list observation) (s t : Q) :
  s <= t ->
  (retention_tenths (fit data) t <= retention_tenths (fit data) s)%Z /\
  (0 <= retention_tenths (fit data) t <= 1000)%Z /\
  forall label,
    retention_line label (fit data) t
    = (label ++ (digits (retention_tenths (fit data) t / 10) ++ "."
                   ++ digits (retention_tenths (fit data) t mod 10))
             ++ "%")%string.
Proof.
  intro Hst.
  destruct (survival_unit data t) as [L U].
  assert (Hlo : (0 <= retention_tenths (fit data) t)%Z).
  { rewrite <- (round_half_even_Z 0). apply round_half_even_mono.
    change (inject_Z 0) with 0. nra. }
  split; [|split; [split; [exact Hlo|]|]].
  - apply round_half_even_mono.
    assert (M : survival_function_at_times (fit data) t
                <= survival_function_at_times (fit data) s).
    { unfold survival_function_at_times, fit; simpl.
      apply step_cumprod_mono;
        [apply event_table_ok | exact Hst | discriminate]. }
    nra.
  - rewrite <- (round_half_even_Z 1000). apply round_half_even_mono.
    change (inject_Z 1000) with 1000. nra.
  - intro label. unfold retention_line, format_1f.
    fold (retention_tenths (fit data) t).
    rewrite (Z.abs_eq _ Hlo).
    destruct (Qcompare (survival_function_at_times (fit data) t * 100) 0)
      eqn:C; [reflexivity | | reflexivity].
    exfalso. apply Qlt_alt in C. nra.
Qed.

Lemma printed_retention_monotone_witness :
  30 <= 90 /\
  (retention_tenths (fit Examples.five_subjects) 90
   <= retention_tenths (fit Examples.five_subjects) 30)%Z.
Proof.
  assert (H : 30 <= 90) by discriminate.
  split; [exact H|].
  apply (printed_retention_monotone Examples.five_subjects 30 90 H).
Defined.

End VerdictFacts.

(** ** The estimator on the generated table *)

Module GeneratedCurveFacts.
Import Generator GeneratorFacts KaplanMeier KaplanMeierFacts Script Samples.

Lemma factor_one_or_deaths (r : table_row) :
  factor r == 1 \/ observed r <> 0%Z.
Proof.
  destruct (Z.eq_dec (observed r) 0) as [E | N]; [left | right; exact N].
  now apply factor_no_deaths.
Qed.

(** The first time the running product is at most [q] is a time at which a
    death was recorded. *)
Lemma first_at_most_event (q : Q) (rows : list table_row) :
  forall acc m, q < acc ->
    first_at_most q (cumprod acc rows) = Finite m ->
    exists r, In r rows /\ event_at r = m /\ observed r <> 0%Z.
Proof.
  induction rows as [|r rows IH]; intros acc m Hacc Hm; simpl in Hm.
  - discriminate.
  - destruct (Qle_bool (acc * factor r) q) eqn:E.
    + injection Hm as <-. exists r. split; [now left|]. split; [reflexivity|].
      destruct (factor_one_or_deaths r) as [F | N]; [|exact N].
      exfalso. apply Qle_bool_iff in E. rewrite F, Qmult_1_r in E. lra.
    + destruct (IH (acc * factor r) m) as (r' & Hin & Ht & Hd).
      * apply Qnot_le_lt. intro H. apply Qle_bool_iff in H. congruence.
      * exact Hm.
      * exists r'. split; [now right | now split].
Qed.

Lemma filter_nonempty {X : Type} (p : X -> bool) (l : list X) :
  List.length (filter p l) <> 0%nat -> exists x, In x l /\ p x = true.
Proof.
  induction l as [|x l IH]; simpl; [congruence|].
  destruct (p x) eqn:E.
  - intros _. exists x. split; [now left | exact E].
  - intro H. destruct (IH H) as (y & Hy & Ey). exists y. split; [now right | exact Ey].
Qed.

Lemma deaths_at_witness (data : list observation) (t : Q) :
  deaths_at data t <> 0%Z ->
  exists o, In o data /\ duration o == t /\ event_observed o = true.
Proof.
  unfold deaths_at, count. intro H.
  destruct (filter_nonempty
              (fun o => Qeq_bool (duration o) t && event_observed o) data)
    as (o & Ho & E); [lia|].
  apply andb_prop in E as [E1 E2]. apply Qeq_bool_iff in E1.
  now exists o.
Qed.

(** A finite median is the duration of an observed event. *)
Lemma median_is_event (data : list observation) (m : Q) :
  median_survival_time_ (fit data) = Finite m ->
  exists o, In o data /\ duration o == m /\ event_observed o = true.
Proof.
  unfold fit; simpl. intro H.
  apply first_at_most_event in H as (r & Hr & <- & Hd); [|reflexivity].
  unfold event_table in Hr. apply in_map_iff in Hr as (t & <- & _).
  simpl in *. now apply deaths_at_witness.
Qed.

(** X12: on the generated table, whenever the median survival time is
    finite it is the time-to-churn of a user who churned, and so it lies
    within the 120 days of the study; a median beyond the study is never
    reported as a number. *)
Theorem generated_median_within_study (ds : list draw) (m : Q) :
  median_survival_time_ (fit (observations (generate ds))) = Finite m ->
  (exists r, In r (generate ds) /\ churned r = 1%Z /\
             time_to_churn r == m) /\
  m <= 120.
Proof.
  intro H. apply median_is_event in H as (o & Ho & Hd & Hev).
  unfold observations in Ho. apply in_map_iff in Ho as (u & <- & Hu).
  unfold duration, event_observed in *. simpl in Hd, Hev.
  apply generate_inv in Hu as Hsim. destruct Hsim as (i & d & _ & ->).
  destruct (TableFacts.time_observed_cases i d) as [[Hc He] | [Hc _]].
  - split.
    + exists (simulate_user i d). split; [exact Hu|]. split; [exact Hc|].
      rewrite <- He. exact Hd.
    + rewrite <- Hd, He. now apply churn_indicator_spec.
  - rewrite Hc in Hev. discriminate.
Qed.

Lemma generated_median_within_study_witness :
  median_survival_time_ (fit (observations (generate [d_free_early])))
  = Finite (1000 # 30) /\ 1000 # 30 <= 120.
Proof.
  assert (H : median_survival_time_
                (fit (observations (generate [d_free_early])))
              = Finite (1000 # 30)) by reflexivity.
  split; [exact H|].
  apply (generated_median_within_study [d_free_early] (1000 # 30) H).
Defined.

End GeneratedCurveFacts.

(** ** Claims about the regression step *)

Module CoxClaims.
Import Generator Cox Script Regression Examples Samples.

Lemma tiers_present_spec (us : list user) :
  tiers_present us = true <-> both_tiers us.
Proof.
  unfold tiers_present, both_tiers.
  rewrite andb_true_iff, !EncodingFacts.existsb_tier,
    !EncodingFacts.tier_column.
  reflexivity.
Qed.

(** The premium indicator is a column exactly when both tiers occur. *)
Lemma premium_key_present (us : list user) :
  key_present us subscription_tier_premium = tiers_present us.
Proof.
  unfold key_present, tiers_present, params_key, cox_columns, dummy_columns,
    present, tier_levels.
  cbn [filter covariate_name].
  destruct (existsb (tier_eqb free) (map tier us)),
           (existsb (tier_eqb premium) (map tier us));
    cbn [tl map app andb];
    rewrite EncodingFacts.index_of_fixed;
    rewrite ?EncodingFacts.no_premium_among_user_types; reflexivity.
Qed.

Lemma interviews_key_present (us : list user) :
  key_present us num_interviews = true.
Proof. reflexivity. Qed.

Lemma after_fit_both_tiers (us : list user) (cph : CoxPHFitter) :
  both_tiers us ->
  after_fit us cph = Completed (printed_summary us cph, key_findings cph) [].
Proof.
  intro H. apply tiers_present_spec in H.
  unfold after_fit, series_get.
  rewrite premium_key_present, H, interviews_key_present. reflexivity.
Qed.

Lemma after_fit_single_tier (us : list user) (cph : CoxPHFitter) :
  ~ both_tiers us -> after_fit us cph = Aborted KeyError.
Proof.
  intro H. unfold after_fit, series_get. rewrite premium_key_present.
  destruct (tiers_present us) eqn:E; [|reflexivity].
  exfalso. now apply H, tiers_present_spec.
Qed.


Local Open Scope R_scope.


(** C7, as stated, fails: a fit that returns after warning that it did not
    converge is a failed fit, yet on a table with both tiers the script
    completes, prints the findings computed from the returned coefficients
    and shows no warning. *)
Lemma unconverged_fit_counterexample :
  failed_to_converge warned_fit = true /\
  is_aborted (regression_step (generate four_draws) warned_fit) = false /\
  regression_step (generate four_draws) warned_fit =
    Completed (printed_summary (generate four_draws) flat_model,
               key_findings flat_model) [].
Proof.
  assert (H : regression_step (generate four_draws) warned_fit =
              Completed (printed_summary (generate four_draws) flat_model,
                         key_findings flat_model) []).
  { unfold regression_step, warned_fit, warnings_filter. cbn [call join].
    rewrite after_fit_both_tiers; [reflexivity|].
    apply tiers_present_spec. reflexivity. }
  split; [reflexivity|]. rewrite H. split; reflexivity.
Qed.

(** C7, amended: the regression step does not validate convergence itself.
    When the fit raises, the script aborts with that exception.  When the fit
    returns, whatever it warned about, the warnings are dropped by the
    'ignore' filter and the script goes on to read the coefficients: on a
    table with both subscription tiers it completes and reports them, and on
    a table with a single tier it aborts with the KeyError of the missing
    premium coefficient.  These are the only ways the step aborts. *)
Theorem regression_step_outcomes (us : list user) :
  (forall e, regression_step us (Raises e) = Aborted e) /\
  (forall cph ws, both_tiers us ->
     regression_step us (Returns cph ws) =
       Completed (printed_summary us cph, key_findings cph) []) /\
  (forall cph ws, ~ both_tiers us ->
     regression_step us (Returns cph ws) = Aborted KeyError) /\
  (forall fitted, is_aborted (regression_step us fitted) = true <->
                  (exists e, fitted = Raises e) \/ ~ both_tiers us).
Proof.
  split; [reflexivity|]. split; [|split].
  - intros cph ws H. unfold regression_step, warnings_filter.
    cbn [call join]. now rewrite after_fit_both_tiers.
  - intros cph ws H. unfold regression_step, warnings_filter.
    cbn [call join]. now rewrite after_fit_single_tier.
  - intros [cph ws | e]; unfold regression_step, warnings_filter;
      cbn [call join].
    + destruct (tiers_present us) eqn:E.
      * rewrite after_fit_both_tiers by now apply tiers_present_spec.
        split; [discriminate|]. intros [[e He] | H]; [discriminate He|].
        exfalso. now apply H, tiers_present_spec.
      * assert (N : ~ both_tiers us).
        { intro H. apply tiers_present_spec in H. congruence. }
        rewrite (after_fit_single_tier us cph N). split; auto.
    + split; [|reflexivity]. intros _. left. now exists e.
Qed.

Lemma regression_step_outcomes_single_tier :
  ~ both_tiers (generate [d_free_idle]) /\
  regression_step (generate [d_free_idle]) warned_fit = Aborted KeyError.
Proof.
  assert (N : ~ both_tiers (generate [d_free_idle])).
  { intro H. apply tiers_present_spec in H. discriminate H. }
  split; [exact N|].
  apply (regression_step_outcomes (generate [d_free_idle])). exact N.
Defined.

End CoxClaims.
